(** * RefusalBypass: the refusal-detection and model-swap filter

    A shallow embedding of [src/RefusalBypass.py] (class [Filter]) and the
    properties of its specification.

    Modelling choices.
    - Python values that travel through the filter (the request body, HTTP
      payloads and decoded HTTP responses) are JSON values, [json]; a Python
      dict is an association list in insertion order.
    - Text is [pystr], a sequence of Unicode code points; [str.strip] and
      [str.upper] follow CPython's tables of blank characters and of
      upper-casings.  Keys of dicts and details of exceptions are only
      compared or passed on, and stay [string].
    - The outside world is explicit: [requests.post] consults an oracle for
      the inference runtime, the awaited event emitter is a function that
      may raise, and [print] writes to the console.  Every such interaction
      is recorded as an [event]; a computation is a function from the
      history so far to its outcome and the events it produced.
    - Exceptions are the instances of Python's [Exception]; the [await]
      points and [loop.run_in_executor] run the wrapped call to completion
      and hand back its result or its exception, so they are transparent
      here. *)

From Stdlib Require Import String Ascii List ZArith NArith QArith_base Bool Arith Lia.
Import ListNotations.
Local Close Scope Q_scope.
Local Open Scope nat_scope.
Local Open Scope string_scope.
Local Open Scope list_scope.

(** ** Text *)

(** A Python [str] is a sequence of Unicode code points. *)
Definition pystr : Type := list N.

(** The text of a literal of the source (the literals are ASCII). *)
Definition lit (s : string) : pystr :=
  map N_of_ascii (list_ascii_of_string s).

Definition quote : pystr := [34%N].
Definition newline : pystr := [10%N].

(** [str.isspace] on one character: the code points CPython's
    [Py_UNICODE_ISSPACE] accepts, which are the ones [str.strip] removes. *)
Definition is_space (c : N) : bool :=
  (((9 <=? c) && (c <=? 13)) || ((28 <=? c) && (c <=? 32))
   || (c =? 0x85) || (c =? 0xA0) || (c =? 0x1680)
   || ((0x2000 <=? c) && (c <=? 0x200A))
   || (c =? 0x2028) || (c =? 0x2029) || (c =? 0x202F) || (c =? 0x205F)
   || (c =? 0x3000))%N.

Fixpoint lstrip (s : pystr) : pystr :=
  match s with
  | [] => []
  | c :: r => if is_space c then lstrip r else s
  end.

Fixpoint rstrip (s : pystr) : pystr :=
  match s with
  | [] => []
  | c :: r =>
      match rstrip r with
      | [] => if is_space c then [] else [c]
      | r' => c :: r'
      end
  end.

(** [s.strip()] *)
Definition strip (s : pystr) : pystr := rstrip (lstrip s).

(** The code points that [str.upper] changes, each with the code points it
    becomes (Unicode 14.0, as CPython 3.11 has it); every other code point
    is left as it is. *)
Definition upper_table : list (N * list N) :=
  [ (97, [65]); (98, [66]); (99, [67]); (100, [68]); (101, [69]); (102, [70]); (103, [71]);
    (104, [72]); (105, [73]); (106, [74]); (107, [75]); (108, [76]); (109, [77]); (110, [78]);
    (111, [79]); (112, [80]); (113, [81]); (114, [82]); (115, [83]); (116, [84]); (117, [85]);
    (118, [86]); (119, [87]); (120, [88]); (121, [89]); (122, [90]); (181, [924]);
    (223, [83; 83]); (224, [192]); (225, [193]); (226, [194]); (227, [195]); (228, [196]);
    (229, [197]); (230, [198]); (231, [199]); (232, [200]); (233, [201]); (234, [202]);
    (235, [203]); (236, [204]); (237, [205]); (238, [206]); (239, [207]); (240, [208]);
    (241, [209]); (242, [210]); (243, [211]); (244, [212]); (245, [213]); (246, [214]);
    (248, [216]); (249, [217]); (250, [218]); (251, [219]); (252, [220]); (253, [221]);
    (254, [222]); (255, [376]); (257, [256]); (259, [258]); (261, [260]); (263, [262]);
    (265, [264]); (267, [266]); (269, [268]); (271, [270]); (273, [272]); (275, [274]);
    (277, [276]); (279, [278]); (281, [280]); (283, [282]); (285, [284]); (287, [286]);
    (289, [288]); (291, [290]); (293, [292]); (295, [294]); (297, [296]); (299, [298]);
    (301, [300]); (303, [302]); (305, [73]); (307, [306]); (309, [308]); (311, [310]);
    (314, [313]); (316, [315]); (318, [317]); (320, [319]); (322, [321]); (324, [323]);
    (326, [325]); (328, [327]); (329, [700; 78]); (331, [330]); (333, [332]); (335, [334]);
    (337, [336]); (339, [338]); (341, [340]); (343, [342]); (345, [344]); (347, [346]);
    (349, [348]); (351, [350]); (353, [352]); (355, [354]); (357, [356]); (359, [358]);
    (361, [360]); (363, [362]); (365, [364]); (367, [366]); (369, [368]); (371, [370]);
    (373, [372]); (375, [374]); (378, [377]); (380, [379]); (382, [381]); (383, [83]);
    (384, [579]); (387, [386]); (389, [388]); (392, [391]); (396, [395]); (402, [401]);
    (405, [502]); (409, [408]); (410, [573]); (414, [544]); (417, [416]); (419, [418]);
    (421, [420]); (424, [423]); (429, [428]); (432, [431]); (436, [435]); (438, [437]);
    (441, [440]); (445, [444]); (447, [503]); (453, [452]); (454, [452]); (456, [455]);
    (457, [455]); (459, [458]); (460, [458]); (462, [461]); (464, [463]); (466, [465]);
    (468, [467]); (470, [469]); (472, [471]); (474, [473]); (476, [475]); (477, [398]);
    (479, [478]); (481, [480]); (483, [482]); (485, [484]); (487, [486]); (489, [488]);
    (491, [490]); (493, [492]); (495, [494]); (496, [74; 780]); (498, [497]); (499, [497]);
    (501, [500]); (505, [504]); (507, [506]); (509, [508]); (511, [510]); (513, [512]);
    (515, [514]); (517, [516]); (519, [518]); (521, [520]); (523, [522]); (525, [524]);
    (527, [526]); (529, [528]); (531, [530]); (533, [532]); (535, [534]); (537, [536]);
    (539, [538]); (541, [540]); (543, [542]); (547, [546]); (549, [548]); (551, [550]);
    (553, [552]); (555, [554]); (557, [556]); (559, [558]); (561, [560]); (563, [562]);
    (572, [571]); (575, [11390]); (576, [11391]); (578, [577]); (583, [582]); (585, [584]);
    (587, [586]); (589, [588]); (591, [590]); (592, [11375]); (593, [11373]); (594, [11376]);
    (595, [385]); (596, [390]); (598, [393]); (599, [394]); (601, [399]); (603, [400]);
    (604, [42923]); (608, [403]); (609, [42924]); (611, [404]); (613, [42893]); (614, [42922]);
    (616, [407]); (617, [406]); (618, [42926]); (619, [11362]); (620, [42925]); (623, [412]);
    (625, [11374]); (626, [413]); (629, [415]); (637, [11364]); (640, [422]); (642, [42949]);
    (643, [425]); (647, [42929]); (648, [430]); (649, [580]); (650, [433]); (651, [434]);
    (652, [581]); (658, [439]); (669, [42930]); (670, [42928]); (837, [921]); (881, [880]);
    (883, [882]); (887, [886]); (891, [1021]); (892, [1022]); (893, [1023]);
    (912, [921; 776; 769]); (940, [902]); (941, [904]); (942, [905]); (943, [906]);
    (944, [933; 776; 769]); (945, [913]); (946, [914]); (947, [915]); (948, [916]); (949, [917]);
    (950, [918]); (951, [919]); (952, [920]); (953, [921]); (954, [922]); (955, [923]);
    (956, [924]); (957, [925]); (958, [926]); (959, [927]); (960, [928]); (961, [929]);
    (962, [931]); (963, [931]); (964, [932]); (965, [933]); (966, [934]); (967, [935]);
    (968, [936]); (969, [937]); (970, [938]); (971, [939]); (972, [908]); (973, [910]);
    (974, [911]); (976, [914]); (977, [920]); (981, [934]); (982, [928]); (983, [975]);
    (985, [984]); (987, [986]); (989, [988]); (991, [990]); (993, [992]); (995, [994]);
    (997, [996]); (999, [998]); (1001, [1000]); (1003, [1002]); (1005, [1004]); (1007, [1006]);
    (1008, [922]); (1009, [929]); (1010, [1017]); (1011, [895]); (1013, [917]); (1016, [1015]);
    (1019, [1018]); (1072, [1040]); (1073, [1041]); (1074, [1042]); (1075, [1043]);
    (1076, [1044]); (1077, [1045]); (1078, [1046]); (1079, [1047]); (1080, [1048]);
    (1081, [1049]); (1082, [1050]); (1083, [1051]); (1084, [1052]); (1085, [1053]);
    (1086, [1054]); (1087, [1055]); (1088, [1056]); (1089, [1057]); (1090, [1058]);
    (1091, [1059]); (1092, [1060]); (1093, [1061]); (1094, [1062]); (1095, [1063]);
    (1096, [1064]); (1097, [1065]); (1098, [1066]); (1099, [1067]); (1100, [1068]);
    (1101, [1069]); (1102, [1070]); (1103, [1071]); (1104, [1024]); (1105, [1025]);
    (1106, [1026]); (1107, [1027]); (1108, [1028]); (1109, [1029]); (1110, [1030]);
    (1111, [1031]); (1112, [1032]); (1113, [1033]); (1114, [1034]); (1115, [1035]);
    (1116, [1036]); (1117, [1037]); (1118, [1038]); (1119, [1039]); (1121, [1120]);
    (1123, [1122]); (1125, [1124]); (1127, [1126]); (1129, [1128]); (1131, [1130]);
    (1133, [1132]); (1135, [1134]); (1137, [1136]); (1139, [1138]); (1141, [1140]);
    (1143, [1142]); (1145, [1144]); (1147, [1146]); (1149, [1148]); (1151, [1150]);
    (1153, [1152]); (1163, [1162]); (1165, [1164]); (1167, [1166]); (1169, [1168]);
    (1171, [1170]); (1173, [1172]); (1175, [1174]); (1177, [1176]); (1179, [1178]);
    (1181, [1180]); (1183, [1182]); (1185, [1184]); (1187, [1186]); (1189, [1188]);
    (1191, [1190]); (1193, [1192]); (1195, [1194]); (1197, [1196]); (1199, [1198]);
    (1201, [1200]); (1203, [1202]); (1205, [1204]); (1207, [1206]); (1209, [1208]);
    (1211, [1210]); (1213, [1212]); (1215, [1214]); (1218, [1217]); (1220, [1219]);
    (1222, [1221]); (1224, [1223]); (1226, [1225]); (1228, [1227]); (1230, [1229]);
    (1231, [1216]); (1233, [1232]); (1235, [1234]); (1237, [1236]); (1239, [1238]);
    (1241, [1240]); (1243, [1242]); (1245, [1244]); (1247, [1246]); (1249, [1248]);
    (1251, [1250]); (1253, [1252]); (1255, [1254]); (1257, [1256]); (1259, [1258]);
    (1261, [1260]); (1263, [1262]); (1265, [1264]); (1267, [1266]); (1269, [1268]);
    (1271, [1270]); (1273, [1272]); (1275, [1274]); (1277, [1276]); (1279, [1278]);
    (1281, [1280]); (1283, [1282]); (1285, [1284]); (1287, [1286]); (1289, [1288]);
    (1291, [1290]); (1293, [1292]); (1295, [1294]); (1297, [1296]); (1299, [1298]);
    (1301, [1300]); (1303, [1302]); (1305, [1304]); (1307, [1306]); (1309, [1308]);
    (1311, [1310]); (1313, [1312]); (1315, [1314]); (1317, [1316]); (1319, [1318]);
    (1321, [1320]); (1323, [1322]); (1325, [1324]); (1327, [1326]); (1377, [1329]);
    (1378, [1330]); (1379, [1331]); (1380, [1332]); (1381, [1333]); (1382, [1334]);
    (1383, [1335]); (1384, [1336]); (1385, [1337]); (1386, [1338]); (1387, [1339]);
    (1388, [1340]); (1389, [1341]); (1390, [1342]); (1391, [1343]); (1392, [1344]);
    (1393, [1345]); (1394, [1346]); (1395, [1347]); (1396, [1348]); (1397, [1349]);
    (1398, [1350]); (1399, [1351]); (1400, [1352]); (1401, [1353]); (1402, [1354]);
    (1403, [1355]); (1404, [1356]); (1405, [1357]); (1406, [1358]); (1407, [1359]);
    (1408, [1360]); (1409, [1361]); (1410, [1362]); (1411, [1363]); (1412, [1364]);
    (1413, [1365]); (1414, [1366]); (1415, [1333; 1362]); (4304, [7312]); (4305, [7313]);
    (4306, [7314]); (4307, [7315]); (4308, [7316]); (4309, [7317]); (4310, [7318]);
    (4311, [7319]); (4312, [7320]); (4313, [7321]); (4314, [7322]); (4315, [7323]);
    (4316, [7324]); (4317, [7325]); (4318, [7326]); (4319, [7327]); (4320, [7328]);
    (4321, [7329]); (4322, [7330]); (4323, [7331]); (4324, [7332]); (4325, [7333]);
    (4326, [7334]); (4327, [7335]); (4328, [7336]); (4329, [7337]); (4330, [7338]);
    (4331, [7339]); (4332, [7340]); (4333, [7341]); (4334, [7342]); (4335, [7343]);
    (4336, [7344]); (4337, [7345]); (4338, [7346]); (4339, [7347]); (4340, [7348]);
    (4341, [7349]); (4342, [7350]); (4343, [7351]); (4344, [7352]); (4345, [7353]);
    (4346, [7354]); (4349, [7357]); (4350, [7358]); (4351, [7359]); (5112, [5104]);
    (5113, [5105]); (5114, [5106]); (5115, [5107]); (5116, [5108]); (5117, [5109]);
    (7296, [1042]); (7297, [1044]); (7298, [1054]); (7299, [1057]); (7300, [1058]);
    (7301, [1058]); (7302, [1066]); (7303, [1122]); (7304, [42570]); (7545, [42877]);
    (7549, [11363]); (7566, [42950]); (7681, [7680]); (7683, [7682]); (7685, [7684]);
    (7687, [7686]); (7689, [7688]); (7691, [7690]); (7693, [7692]); (7695, [7694]);
    (7697, [7696]); (7699, [7698]); (7701, [7700]); (7703, [7702]); (7705, [7704]);
    (7707, [7706]); (7709, [7708]); (7711, [7710]); (7713, [7712]); (7715, [7714]);
    (7717, [7716]); (7719, [7718]); (7721, [7720]); (7723, [7722]); (7725, [7724]);
    (7727, [7726]); (7729, [7728]); (7731, [7730]); (7733, [7732]); (7735, [7734]);
    (7737, [7736]); (7739, [7738]); (7741, [7740]); (7743, [7742]); (7745, [7744]);
    (7747, [7746]); (7749, [7748]); (7751, [7750]); (7753, [7752]); (7755, [7754]);
    (7757, [7756]); (7759, [7758]); (7761, [7760]); (7763, [7762]); (7765, [7764]);
    (7767, [7766]); (7769, [7768]); (7771, [7770]); (7773, [7772]); (7775, [7774]);
    (7777, [7776]); (7779, [7778]); (7781, [7780]); (7783, [7782]); (7785, [7784]);
    (7787, [7786]); (7789, [7788]); (7791, [7790]); (7793, [7792]); (7795, [7794]);
    (7797, [7796]); (7799, [7798]); (7801, [7800]); (7803, [7802]); (7805, [7804]);
    (7807, [7806]); (7809, [7808]); (7811, [7810]); (7813, [7812]); (7815, [7814]);
    (7817, [7816]); (7819, [7818]); (7821, [7820]); (7823, [7822]); (7825, [7824]);
    (7827, [7826]); (7829, [7828]); (7830, [72; 817]); (7831, [84; 776]); (7832, [87; 778]);
    (7833, [89; 778]); (7834, [65; 702]); (7835, [7776]); (7841, [7840]); (7843, [7842]);
    (7845, [7844]); (7847, [7846]); (7849, [7848]); (7851, [7850]); (7853, [7852]);
    (7855, [7854]); (7857, [7856]); (7859, [7858]); (7861, [7860]); (7863, [7862]);
    (7865, [7864]); (7867, [7866]); (7869, [7868]); (7871, [7870]); (7873, [7872]);
    (7875, [7874]); (7877, [7876]); (7879, [7878]); (7881, [7880]); (7883, [7882]);
    (7885, [7884]); (7887, [7886]); (7889, [7888]); (7891, [7890]); (7893, [7892]);
    (7895, [7894]); (7897, [7896]); (7899, [7898]); (7901, [7900]); (7903, [7902]);
    (7905, [7904]); (7907, [7906]); (7909, [7908]); (7911, [7910]); (7913, [7912]);
    (7915, [7914]); (7917, [7916]); (7919, [7918]); (7921, [7920]); (7923, [7922]);
    (7925, [7924]); (7927, [7926]); (7929, [7928]); (7931, [7930]); (7933, [7932]);
    (7935, [7934]); (7936, [7944]); (7937, [7945]); (7938, [7946]); (7939, [7947]);
    (7940, [7948]); (7941, [7949]); (7942, [7950]); (7943, [7951]); (7952, [7960]);
    (7953, [7961]); (7954, [7962]); (7955, [7963]); (7956, [7964]); (7957, [7965]);
    (7968, [7976]); (7969, [7977]); (7970, [7978]); (7971, [7979]); (7972, [7980]);
    (7973, [7981]); (7974, [7982]); (7975, [7983]); (7984, [7992]); (7985, [7993]);
    (7986, [7994]); (7987, [7995]); (7988, [7996]); (7989, [7997]); (7990, [7998]);
    (7991, [7999]); (8000, [8008]); (8001, [8009]); (8002, [8010]); (8003, [8011]);
    (8004, [8012]); (8005, [8013]); (8016, [933; 787]); (8017, [8025]); (8018, [933; 787; 768]);
    (8019, [8027]); (8020, [933; 787; 769]); (8021, [8029]); (8022, [933; 787; 834]);
    (8023, [8031]); (8032, [8040]); (8033, [8041]); (8034, [8042]); (8035, [8043]);
    (8036, [8044]); (8037, [8045]); (8038, [8046]); (8039, [8047]); (8048, [8122]);
    (8049, [8123]); (8050, [8136]); (8051, [8137]); (8052, [8138]); (8053, [8139]);
    (8054, [8154]); (8055, [8155]); (8056, [8184]); (8057, [8185]); (8058, [8170]);
    (8059, [8171]); (8060, [8186]); (8061, [8187]); (8064, [7944; 921]); (8065, [7945; 921]);
    (8066, [7946; 921]); (8067, [7947; 921]); (8068, [7948; 921]); (8069, [7949; 921]);
    (8070, [7950; 921]); (8071, [7951; 921]); (8072, [7944; 921]); (8073, [7945; 921]);
    (8074, [7946; 921]); (8075, [7947; 921]); (8076, [7948; 921]); (8077, [7949; 921]);
    (8078, [7950; 921]); (8079, [7951; 921]); (8080, [7976; 921]); (8081, [7977; 921]);
    (8082, [7978; 921]); (8083, [7979; 921]); (8084, [7980; 921]); (8085, [7981; 921]);
    (8086, [7982; 921]); (8087, [7983; 921]); (8088, [7976; 921]); (8089, [7977; 921]);
    (8090, [7978; 921]); (8091, [7979; 921]); (8092, [7980; 921]); (8093, [7981; 921]);
    (8094, [7982; 921]); (8095, [7983; 921]); (8096, [8040; 921]); (8097, [8041; 921]);
    (8098, [8042; 921]); (8099, [8043; 921]); (8100, [8044; 921]); (8101, [8045; 921]);
    (8102, [8046; 921]); (8103, [8047; 921]); (8104, [8040; 921]); (8105, [8041; 921]);
    (8106, [8042; 921]); (8107, [8043; 921]); (8108, [8044; 921]); (8109, [8045; 921]);
    (8110, [8046; 921]); (8111, [8047; 921]); (8112, [8120]); (8113, [8121]);
    (8114, [8122; 921]); (8115, [913; 921]); (8116, [902; 921]); (8118, [913; 834]);
    (8119, [913; 834; 921]); (8124, [913; 921]); (8126, [921]); (8130, [8138; 921]);
    (8131, [919; 921]); (8132, [905; 921]); (8134, [919; 834]); (8135, [919; 834; 921]);
    (8140, [919; 921]); (8144, [8152]); (8145, [8153]); (8146, [921; 776; 768]);
    (8147, [921; 776; 769]); (8150, [921; 834]); (8151, [921; 776; 834]); (8160, [8168]);
    (8161, [8169]); (8162, [933; 776; 768]); (8163, [933; 776; 769]); (8164, [929; 787]);
    (8165, [8172]); (8166, [933; 834]); (8167, [933; 776; 834]); (8178, [8186; 921]);
    (8179, [937; 921]); (8180, [911; 921]); (8182, [937; 834]); (8183, [937; 834; 921]);
    (8188, [937; 921]); (8526, [8498]); (8560, [8544]); (8561, [8545]); (8562, [8546]);
    (8563, [8547]); (8564, [8548]); (8565, [8549]); (8566, [8550]); (8567, [8551]);
    (8568, [8552]); (8569, [8553]); (8570, [8554]); (8571, [8555]); (8572, [8556]);
    (8573, [8557]); (8574, [8558]); (8575, [8559]); (8580, [8579]); (9424, [9398]);
    (9425, [9399]); (9426, [9400]); (9427, [9401]); (9428, [9402]); (9429, [9403]);
    (9430, [9404]); (9431, [9405]); (9432, [9406]); (9433, [9407]); (9434, [9408]);
    (9435, [9409]); (9436, [9410]); (9437, [9411]); (9438, [9412]); (9439, [9413]);
    (9440, [9414]); (9441, [9415]); (9442, [9416]); (9443, [9417]); (9444, [9418]);
    (9445, [9419]); (9446, [9420]); (9447, [9421]); (9448, [9422]); (9449, [9423]);
    (11312, [11264]); (11313, [11265]); (11314, [11266]); (11315, [11267]); (11316, [11268]);
    (11317, [11269]); (11318, [11270]); (11319, [11271]); (11320, [11272]); (11321, [11273]);
    (11322, [11274]); (11323, [11275]); (11324, [11276]); (11325, [11277]); (11326, [11278]);
    (11327, [11279]); (11328, [11280]); (11329, [11281]); (11330, [11282]); (11331, [11283]);
    (11332, [11284]); (11333, [11285]); (11334, [11286]); (11335, [11287]); (11336, [11288]);
    (11337, [11289]); (11338, [11290]); (11339, [11291]); (11340, [11292]); (11341, [11293]);
    (11342, [11294]); (11343, [11295]); (11344, [11296]); (11345, [11297]); (11346, [11298]);
    (11347, [11299]); (11348, [11300]); (11349, [11301]); (11350, [11302]); (11351, [11303]);
    (11352, [11304]); (11353, [11305]); (11354, [11306]); (11355, [11307]); (11356, [11308]);
    (11357, [11309]); (11358, [11310]); (11359, [11311]); (11361, [11360]); (11365, [570]);
    (11366, [574]); (11368, [11367]); (11370, [11369]); (11372, [11371]); (11379, [11378]);
    (11382, [11381]); (11393, [11392]); (11395, [11394]); (11397, [11396]); (11399, [11398]);
    (11401, [11400]); (11403, [11402]); (11405, [11404]); (11407, [11406]); (11409, [11408]);
    (11411, [11410]); (11413, [11412]); (11415, [11414]); (11417, [11416]); (11419, [11418]);
    (11421, [11420]); (11423, [11422]); (11425, [11424]); (11427, [11426]); (11429, [11428]);
    (11431, [11430]); (11433, [11432]); (11435, [11434]); (11437, [11436]); (11439, [11438]);
    (11441, [11440]); (11443, [11442]); (11445, [11444]); (11447, [11446]); (11449, [11448]);
    (11451, [11450]); (11453, [11452]); (11455, [11454]); (11457, [11456]); (11459, [11458]);
    (11461, [11460]); (11463, [11462]); (11465, [11464]); (11467, [11466]); (11469, [11468]);
    (11471, [11470]); (11473, [11472]); (11475, [11474]); (11477, [11476]); (11479, [11478]);
    (11481, [11480]); (11483, [11482]); (11485, [11484]); (11487, [11486]); (11489, [11488]);
    (11491, [11490]); (11500, [11499]); (11502, [11501]); (11507, [11506]); (11520, [4256]);
    (11521, [4257]); (11522, [4258]); (11523, [4259]); (11524, [4260]); (11525, [4261]);
    (11526, [4262]); (11527, [4263]); (11528, [4264]); (11529, [4265]); (11530, [4266]);
    (11531, [4267]); (11532, [4268]); (11533, [4269]); (11534, [4270]); (11535, [4271]);
    (11536, [4272]); (11537, [4273]); (11538, [4274]); (11539, [4275]); (11540, [4276]);
    (11541, [4277]); (11542, [4278]); (11543, [4279]); (11544, [4280]); (11545, [4281]);
    (11546, [4282]); (11547, [4283]); (11548, [4284]); (11549, [4285]); (11550, [4286]);
    (11551, [4287]); (11552, [4288]); (11553, [4289]); (11554, [4290]); (11555, [4291]);
    (11556, [4292]); (11557, [4293]); (11559, [4295]); (11565, [4301]); (42561, [42560]);
    (42563, [42562]); (42565, [42564]); (42567, [42566]); (42569, [42568]); (42571, [42570]);
    (42573, [42572]); (42575, [42574]); (42577, [42576]); (42579, [42578]); (42581, [42580]);
    (42583, [42582]); (42585, [42584]); (42587, [42586]); (42589, [42588]); (42591, [42590]);
    (42593, [42592]); (42595, [42594]); (42597, [42596]); (42599, [42598]); (42601, [42600]);
    (42603, [42602]); (42605, [42604]); (42625, [42624]); (42627, [42626]); (42629, [42628]);
    (42631, [42630]); (42633, [42632]); (42635, [42634]); (42637, [42636]); (42639, [42638]);
    (42641, [42640]); (42643, [42642]); (42645, [42644]); (42647, [42646]); (42649, [42648]);
    (42651, [42650]); (42787, [42786]); (42789, [42788]); (42791, [42790]); (42793, [42792]);
    (42795, [42794]); (42797, [42796]); (42799, [42798]); (42803, [42802]); (42805, [42804]);
    (42807, [42806]); (42809, [42808]); (42811, [42810]); (42813, [42812]); (42815, [42814]);
    (42817, [42816]); (42819, [42818]); (42821, [42820]); (42823, [42822]); (42825, [42824]);
    (42827, [42826]); (42829, [42828]); (42831, [42830]); (42833, [42832]); (42835, [42834]);
    (42837, [42836]); (42839, [42838]); (42841, [42840]); (42843, [42842]); (42845, [42844]);
    (42847, [42846]); (42849, [42848]); (42851, [42850]); (42853, [42852]); (42855, [42854]);
    (42857, [42856]); (42859, [42858]); (42861, [42860]); (42863, [42862]); (42874, [42873]);
    (42876, [42875]); (42879, [42878]); (42881, [42880]); (42883, [42882]); (42885, [42884]);
    (42887, [42886]); (42892, [42891]); (42897, [42896]); (42899, [42898]); (42900, [42948]);
    (42903, [42902]); (42905, [42904]); (42907, [42906]); (42909, [42908]); (42911, [42910]);
    (42913, [42912]); (42915, [42914]); (42917, [42916]); (42919, [42918]); (42921, [42920]);
    (42933, [42932]); (42935, [42934]); (42937, [42936]); (42939, [42938]); (42941, [42940]);
    (42943, [42942]); (42945, [42944]); (42947, [42946]); (42952, [42951]); (42954, [42953]);
    (42961, [42960]); (42967, [42966]); (42969, [42968]); (42998, [42997]); (43859, [42931]);
    (43888, [5024]); (43889, [5025]); (43890, [5026]); (43891, [5027]); (43892, [5028]);
    (43893, [5029]); (43894, [5030]); (43895, [5031]); (43896, [5032]); (43897, [5033]);
    (43898, [5034]); (43899, [5035]); (43900, [5036]); (43901, [5037]); (43902, [5038]);
    (43903, [5039]); (43904, [5040]); (43905, [5041]); (43906, [5042]); (43907, [5043]);
    (43908, [5044]); (43909, [5045]); (43910, [5046]); (43911, [5047]); (43912, [5048]);
    (43913, [5049]); (43914, [5050]); (43915, [5051]); (43916, [5052]); (43917, [5053]);
    (43918, [5054]); (43919, [5055]); (43920, [5056]); (43921, [5057]); (43922, [5058]);
    (43923, [5059]); (43924, [5060]); (43925, [5061]); (43926, [5062]); (43927, [5063]);
    (43928, [5064]); (43929, [5065]); (43930, [5066]); (43931, [5067]); (43932, [5068]);
    (43933, [5069]); (43934, [5070]); (43935, [5071]); (43936, [5072]); (43937, [5073]);
    (43938, [5074]); (43939, [5075]); (43940, [5076]); (43941, [5077]); (43942, [5078]);
    (43943, [5079]); (43944, [5080]); (43945, [5081]); (43946, [5082]); (43947, [5083]);
    (43948, [5084]); (43949, [5085]); (43950, [5086]); (43951, [5087]); (43952, [5088]);
    (43953, [5089]); (43954, [5090]); (43955, [5091]); (43956, [5092]); (43957, [5093]);
    (43958, [5094]); (43959, [5095]); (43960, [5096]); (43961, [5097]); (43962, [5098]);
    (43963, [5099]); (43964, [5100]); (43965, [5101]); (43966, [5102]); (43967, [5103]);
    (64256, [70; 70]); (64257, [70; 73]); (64258, [70; 76]); (64259, [70; 70; 73]);
    (64260, [70; 70; 76]); (64261, [83; 84]); (64262, [83; 84]); (64275, [1348; 1350]);
    (64276, [1348; 1333]); (64277, [1348; 1339]); (64278, [1358; 1350]); (64279, [1348; 1341]);
    (65345, [65313]); (65346, [65314]); (65347, [65315]); (65348, [65316]); (65349, [65317]);
    (65350, [65318]); (65351, [65319]); (65352, [65320]); (65353, [65321]); (65354, [65322]);
    (65355, [65323]); (65356, [65324]); (65357, [65325]); (65358, [65326]); (65359, [65327]);
    (65360, [65328]); (65361, [65329]); (65362, [65330]); (65363, [65331]); (65364, [65332]);
    (65365, [65333]); (65366, [65334]); (65367, [65335]); (65368, [65336]); (65369, [65337]);
    (65370, [65338]); (66600, [66560]); (66601, [66561]); (66602, [66562]); (66603, [66563]);
    (66604, [66564]); (66605, [66565]); (66606, [66566]); (66607, [66567]); (66608, [66568]);
    (66609, [66569]); (66610, [66570]); (66611, [66571]); (66612, [66572]); (66613, [66573]);
    (66614, [66574]); (66615, [66575]); (66616, [66576]); (66617, [66577]); (66618, [66578]);
    (66619, [66579]); (66620, [66580]); (66621, [66581]); (66622, [66582]); (66623, [66583]);
    (66624, [66584]); (66625, [66585]); (66626, [66586]); (66627, [66587]); (66628, [66588]);
    (66629, [66589]); (66630, [66590]); (66631, [66591]); (66632, [66592]); (66633, [66593]);
    (66634, [66594]); (66635, [66595]); (66636, [66596]); (66637, [66597]); (66638, [66598]);
    (66639, [66599]); (66776, [66736]); (66777, [66737]); (66778, [66738]); (66779, [66739]);
    (66780, [66740]); (66781, [66741]); (66782, [66742]); (66783, [66743]); (66784, [66744]);
    (66785, [66745]); (66786, [66746]); (66787, [66747]); (66788, [66748]); (66789, [66749]);
    (66790, [66750]); (66791, [66751]); (66792, [66752]); (66793, [66753]); (66794, [66754]);
    (66795, [66755]); (66796, [66756]); (66797, [66757]); (66798, [66758]); (66799, [66759]);
    (66800, [66760]); (66801, [66761]); (66802, [66762]); (66803, [66763]); (66804, [66764]);
    (66805, [66765]); (66806, [66766]); (66807, [66767]); (66808, [66768]); (66809, [66769]);
    (66810, [66770]); (66811, [66771]); (66967, [66928]); (66968, [66929]); (66969, [66930]);
    (66970, [66931]); (66971, [66932]); (66972, [66933]); (66973, [66934]); (66974, [66935]);
    (66975, [66936]); (66976, [66937]); (66977, [66938]); (66979, [66940]); (66980, [66941]);
    (66981, [66942]); (66982, [66943]); (66983, [66944]); (66984, [66945]); (66985, [66946]);
    (66986, [66947]); (66987, [66948]); (66988, [66949]); (66989, [66950]); (66990, [66951]);
    (66991, [66952]); (66992, [66953]); (66993, [66954]); (66995, [66956]); (66996, [66957]);
    (66997, [66958]); (66998, [66959]); (66999, [66960]); (67000, [66961]); (67001, [66962]);
    (67003, [66964]); (67004, [66965]); (68800, [68736]); (68801, [68737]); (68802, [68738]);
    (68803, [68739]); (68804, [68740]); (68805, [68741]); (68806, [68742]); (68807, [68743]);
    (68808, [68744]); (68809, [68745]); (68810, [68746]); (68811, [68747]); (68812, [68748]);
    (68813, [68749]); (68814, [68750]); (68815, [68751]); (68816, [68752]); (68817, [68753]);
    (68818, [68754]); (68819, [68755]); (68820, [68756]); (68821, [68757]); (68822, [68758]);
    (68823, [68759]); (68824, [68760]); (68825, [68761]); (68826, [68762]); (68827, [68763]);
    (68828, [68764]); (68829, [68765]); (68830, [68766]); (68831, [68767]); (68832, [68768]);
    (68833, [68769]); (68834, [68770]); (68835, [68771]); (68836, [68772]); (68837, [68773]);
    (68838, [68774]); (68839, [68775]); (68840, [68776]); (68841, [68777]); (68842, [68778]);
    (68843, [68779]); (68844, [68780]); (68845, [68781]); (68846, [68782]); (68847, [68783]);
    (68848, [68784]); (68849, [68785]); (68850, [68786]); (71872, [71840]); (71873, [71841]);
    (71874, [71842]); (71875, [71843]); (71876, [71844]); (71877, [71845]); (71878, [71846]);
    (71879, [71847]); (71880, [71848]); (71881, [71849]); (71882, [71850]); (71883, [71851]);
    (71884, [71852]); (71885, [71853]); (71886, [71854]); (71887, [71855]); (71888, [71856]);
    (71889, [71857]); (71890, [71858]); (71891, [71859]); (71892, [71860]); (71893, [71861]);
    (71894, [71862]); (71895, [71863]); (71896, [71864]); (71897, [71865]); (71898, [71866]);
    (71899, [71867]); (71900, [71868]); (71901, [71869]); (71902, [71870]); (71903, [71871]);
    (93792, [93760]); (93793, [93761]); (93794, [93762]); (93795, [93763]); (93796, [93764]);
    (93797, [93765]); (93798, [93766]); (93799, [93767]); (93800, [93768]); (93801, [93769]);
    (93802, [93770]); (93803, [93771]); (93804, [93772]); (93805, [93773]); (93806, [93774]);
    (93807, [93775]); (93808, [93776]); (93809, [93777]); (93810, [93778]); (93811, [93779]);
    (93812, [93780]); (93813, [93781]); (93814, [93782]); (93815, [93783]); (93816, [93784]);
    (93817, [93785]); (93818, [93786]); (93819, [93787]); (93820, [93788]); (93821, [93789]);
    (93822, [93790]); (93823, [93791]); (125218, [125184]); (125219, [125185]);
    (125220, [125186]); (125221, [125187]); (125222, [125188]); (125223, [125189]);
    (125224, [125190]); (125225, [125191]); (125226, [125192]); (125227, [125193]);
    (125228, [125194]); (125229, [125195]); (125230, [125196]); (125231, [125197]);
    (125232, [125198]); (125233, [125199]); (125234, [125200]); (125235, [125201]);
    (125236, [125202]); (125237, [125203]); (125238, [125204]); (125239, [125205]);
    (125240, [125206]); (125241, [125207]); (125242, [125208]); (125243, [125209]);
    (125244, [125210]); (125245, [125211]); (125246, [125212]); (125247, [125213]);
    (125248, [125214]); (125249, [125215]); (125250, [125216]); (125251, [125217]) ]%N.

Definition upper_char (c : N) : list N :=
  match find (fun entry => N.eqb (fst entry) c) upper_table with
  | Some entry => snd entry
  | None => [c]
  end.

(** [s.upper()]: each character is replaced by its upper-casing. *)
Definition upper (s : pystr) : pystr := flat_map upper_char s.

Fixpoint starts_with (p s : pystr) : bool :=
  match p, s with
  | [], _ => true
  | a :: p', b :: s' => N.eqb a b && starts_with p' s'
  | _ :: _, [] => false
  end.

(** [needle in hay] *)
Fixpoint str_contains (needle hay : pystr) : bool :=
  starts_with needle hay ||
  match hay with
  | [] => false
  | _ :: r => str_contains needle r
  end.

(** [s[:n]] *)
Definition slice_to (n : nat) (s : pystr) : pystr := firstn n s.

Arguments upper_char : simpl never.

(** ** Values *)

#[local] Set Warnings "-register-all".

Inductive json : Type :=
| JNull
| JBool (b : bool)
| JInt (n : Z)
| JFloat (q : Q)
| JStr (s : pystr)
| JList (l : list json)
| JDict (d : list (string * json)).

Definition dict := list (string * json).

(** [d.get(k)] *)
Fixpoint dict_get (d : dict) (k : string) : option json :=
  match d with
  | [] => None
  | (k', v) :: r => if String.eqb k' k then Some v else dict_get r k
  end.

(** [d.get(k, default)] *)
Definition dict_get_default (d : dict) (k : string) (default : json) : json :=
  match dict_get d k with
  | Some v => v
  | None => default
  end.

(** [d[k] = v]: an existing key keeps its position, a new key goes last. *)
Fixpoint dict_set (d : dict) (k : string) (v : json) : dict :=
  match d with
  | [] => [(k, v)]
  | (k', v') :: r =>
      if String.eqb k' k then (k, v) :: r else (k', v') :: dict_set r k v
  end.

Definition dict_keys (d : dict) : list string := map fst d.

(** Python truthiness, as [not x] and [if x:] read it. *)
Definition truthy (v : json) : bool :=
  match v with
  | JNull => false
  | JBool b => b
  | JInt n => negb (Z.eqb n 0)
  | JFloat q => negb (Z.eqb (Qnum q) 0)
  | JStr s => match s with [] => false | _ => true end
  | JList l => match l with [] => false | _ => true end
  | JDict d => match d with [] => false | _ => true end
  end.

(** ** Exceptions, events and the outside world *)

Inductive exn : Type :=
| TransportError (detail : string)      (* raised inside requests.post *)
| HTTPError (status : Z)                (* response.raise_for_status() *)
| JSONDecodeError                       (* response.json() *)
| AttributeError (v : json) (attr : string)
| TypeError (v : json)
| KeyError (k : json)
| IndexError
| ObserverError (detail : string).      (* raised by the awaited emitter *)

Inductive event : Type :=
| EvPost (url : pystr) (payload : json)   (* requests.post(url, json=payload) *)
| EvEmit (ev : json)                       (* await emitter(ev) *)
| EvPrint (line : pystr).                  (* print(line) *)

Definition history := list event.

(** What a POST comes back with: the call raises, or a response arrives
    with a status code and a body that is JSON or not. *)
Inductive http_outcome : Type :=
| Unreachable (detail : string)
| Responded (status_code : Z) (body : option json).

Record Response : Type := mkResponse {
  status_code : Z;
  body_json : option json
}.

(** The event emitter handed to [outlet]: called on an event, it delivers
    it ([None]) or raises ([Some e]). *)
Definition emitter := history -> json -> option exn.

Definition posts (es : list event) : list (pystr * json) :=
  flat_map (fun e => match e with EvPost u p => [(u, p)] | _ => [] end) es.

Definition emitted (es : list event) : list json :=
  flat_map (fun e => match e with EvEmit ev => [ev] | _ => [] end) es.

Definition printed (es : list event) : list pystr :=
  flat_map (fun e => match e with EvPrint l => [l] | _ => [] end) es.

(** ** Computations *)

Inductive outcome (A : Type) : Type :=
| Ok (a : A)
| Raise (e : exn).
Arguments Ok {A} a.
Arguments Raise {A} e.

(** A computation reads the history and returns how it ended together with
    the events it produced, oldest first. *)
Definition M (A : Type) : Type := history -> outcome A * list event.

Definition ret {A} (a : A) : M A := fun _ => (Ok a, []).

Definition raise {A} (e : exn) : M A := fun _ => (Raise e, []).

Definition bind {A B} (m : M A) (k : A -> M B) : M B :=
  fun h =>
    match m h with
    | (Ok a, es) => let r := k a (h ++ es) in (fst r, es ++ snd r)
    | (Raise e, es) => (Raise e, es)
    end.

(** [try: m  except Exception as e: handler e] *)
Definition try_except {A} (m : M A) (handler : exn -> M A) : M A :=
  fun h =>
    match m h with
    | (Ok a, es) => (Ok a, es)
    | (Raise e, es) => let r := handler e (h ++ es) in (fst r, es ++ snd r)
    end.

Definition tell (e : event) : M unit := fun _ => (Ok tt, [e]).

Definition print (line : pystr) : M unit := tell (EvPrint line).

Definition when (b : bool) (m : M unit) : M unit := if b then m else ret tt.

Declare Scope py_scope.
Delimit Scope py_scope with py.
Notation "x <- m ;; k" := (bind m (fun x => k))
  (at level 61, m at next level, right associativity) : py_scope.
Notation "m ;; k" := (bind m (fun _ => k))
  (at level 61, right associativity) : py_scope.
Local Open Scope py_scope.

(** ** Dynamic operations on values *)

(** [v.get(k, default)]: only a dict has the method. *)
Definition method_get (v : json) (k : string) (default : json) : M json :=
  match v with
  | JDict d => ret (dict_get_default d k default)
  | _ => raise (AttributeError v "get")
  end.

(** [v.strip()]: only text has the method. *)
Definition method_strip (v : json) : M pystr :=
  match v with
  | JStr s => ret (strip s)
  | _ => raise (AttributeError v "strip")
  end.

(** [v[-1]] *)
Definition index_last (v : json) : M json :=
  match v with
  | JList l =>
      match rev l with
      | [] => raise IndexError
      | x :: _ => ret x
      end
  | JStr s =>
      match rev s with
      | [] => raise IndexError
      | c :: _ => ret (JStr [c])
      end
  | JDict _ => raise (KeyError (JInt (-1)))
  | _ => raise (TypeError v)
  end.

(** [v[:-1]] *)
Definition slice_but_last (v : json) : M json :=
  match v with
  | JList l => ret (JList (removelast l))
  | JStr s => ret (JStr (removelast s))
  | _ => raise (TypeError v)
  end.

(** [d[k]] *)
Definition getitem (d : dict) (k : string) : M json :=
  match dict_get d k with
  | Some v => ret v
  | None => raise (KeyError (JStr (lit k)))
  end.

(** [body["messages"][-1]["content"] = v].  The nested dict is mutated in
    place and [body] keeps referring to it; on values this is the body with
    that one entry of its last message replaced. *)
Definition set_last_content (body : dict) (v : json) : M dict :=
  msgs <- getitem body "messages" ;;
  match msgs with
  | JList l =>
      match rev l with
      | [] => raise IndexError
      | JDict m :: r =>
          ret (dict_set body "messages"
                 (JList (rev r ++ [JDict (dict_set m "content" v)])))
      | x :: _ => raise (TypeError x)
      end
  | JDict _ => raise (KeyError (JInt (-1)))
  | _ => raise (TypeError msgs)
  end.

(** ** Configuration *)

Record Valves : Type := mkValves {
  abliterated_model_id : pystr;
  judge_model_id : pystr;
  ollama_base_url : pystr;
  debug : bool
}.

Definition default_valves : Valves :=
  {| abliterated_model_id := lit "dolphin-mistral";
     judge_model_id := lit "llama3.2";
     ollama_base_url := lit "http://host.docker.internal:11434";
     debug := false |}.

Record Filter : Type := mkFilter { valves : Valves }.

(** [Filter.__init__] *)
Definition init : Filter := {| valves := default_valves |}.

(** ** Vocabulary of the specification *)

(** Text that is empty or made of blanks only. *)
Definition all_space (s : pystr) : bool := forallb is_space s.

(** The letters of YES, in either case, as code points. *)
Definition is_Y (c : N) : Prop := c = 89%N \/ c = 121%N.
Definition is_E (c : N) : Prop := c = 69%N \/ c = 101%N.
Definition is_S (c : N) : Prop := c = 83%N \/ c = 115%N.

(** The characters whose upper-casing starts with S: S and s, the long s
    (U+017F), the sharp s (U+00DF, upper-cased SS) and the ligatures
    U+FB05 and U+FB06 (upper-cased ST). *)
Definition upper_starts_with_S (c : N) : Prop :=
  is_S c \/ c = 0x17F%N \/ c = 0xDF%N \/ c = 0xFB05%N \/ c = 0xFB06%N.

(** The word YES stands somewhere in the text, each letter in either case. *)
Definition contains_yes_any_case (s : pystr) : Prop :=
  exists pre y e z post,
    s = pre ++ y :: e :: z :: post /\ is_Y y /\ is_E e /\ is_S z.

(** Y or y, E or e and a character whose upper-casing starts with S stand
    side by side somewhere in the text. *)
Definition contains_yes_when_upper (s : pystr) : Prop :=
  exists pre y e z post,
    s = pre ++ y :: e :: z :: post /\ is_Y y /\ is_E e /\ upper_starts_with_S z.

(** The same three characters open the text. *)
Definition yes_at_head (s : pystr) : Prop :=
  exists y e z post,
    s = y :: e :: z :: post /\ is_Y y /\ is_E e /\ upper_starts_with_S z.

(** The judge's raw reply: the exchange went through, the status is no
    error, and the body is an object whose [response] is text (an absent
    [response] reads as the empty reply). *)
Inductive judge_reply : http_outcome -> pystr -> Prop :=
| judge_reply_text (status : Z) (d : dict) (reply : pystr) :
    (status < 400 \/ 600 <= status)%Z ->
    dict_get_default d "response" (JStr (lit "")) = JStr reply ->
    judge_reply (Responded status (Some (JDict d))) reply.

(** The replacement generation fails: no connection, an error status, a
    body that is not JSON or not of the shape of a chat answer, or an
    answer without content. *)
Inductive generation_failed : http_outcome -> Prop :=
| failed_transport (detail : string) :
    generation_failed (Unreachable detail)
| failed_status (status : Z) (body : option json) :
    (400 <= status < 600)%Z ->
    generation_failed (Responded status body)
| failed_decode (status : Z) :
    generation_failed (Responded status None)
| failed_shape (status : Z) (v : json) :
    (forall d, v <> JDict d) ->
    generation_failed (Responded status (Some v))
| failed_message (status : Z) (d : dict) (m : json) :
    dict_get d "message" = Some m ->
    (forall d', m <> JDict d') ->
    generation_failed (Responded status (Some (JDict d)))
| failed_no_content (status : Z) (d m : dict) :
    dict_get_default d "message" (JDict []) = JDict m ->
    dict_get m "content" = None ->
    generation_failed (Responded status (Some (JDict d))).

(** The observer, when there is one, delivers every event. *)
Definition delivers (em : option emitter) : Prop :=
  forall f, em = Some f -> forall h ev, f h ev = None.

Definition has_key (k : string) (v : json) : bool :=
  match v with
  | JDict d => match dict_get d k with Some _ => true | None => false end
  | _ => false
  end.

(** A residency request carries [keep_alive]; a generation request carries
    the [messages] to complete. *)
Definition is_residency_call (c : pystr * json) : bool := has_key "keep_alive" (snd c).
Definition is_generation_call (c : pystr * json) : bool := has_key "messages" (snd c).

(** A progress event is terminal when its [done] flag is set. *)
Definition is_terminal (ev : json) : bool :=
  match ev with
  | JDict d =>
      match dict_get d "data" with
      | Some (JDict data) =>
          match dict_get data "done" with
          | Some (JBool true) => true
          | _ => false
          end
      | _ => false
      end
  | _ => false
  end.

(** The messages of a body and the content of its last message, as the
    caller sees them. *)
Definition messages_of (body : dict) : list json :=
  match dict_get body "messages" with
  | Some (JList l) => l
  | _ => []
  end.

Definition last_content (body : dict) : option json :=
  match rev (messages_of body) with
  | JDict m :: _ => dict_get m "content"
  | _ => None
  end.

(** The caller's body after a run differs from the body before it in the
    content of the last message and in nothing else: same fields in the
    same order, same earlier messages, same other entries of the last
    message. *)
Definition only_last_content_differs (body body' : dict) : Prop :=
  exists init last last',
    dict_get body "messages" = Some (JList (init ++ [JDict last])) /\
    dict_get body' "messages" = Some (JList (init ++ [JDict last'])) /\
    (forall k, k <> "content" -> dict_get last' k = dict_get last k) /\
    dict_keys last' = dict_keys last /\
    (forall k, k <> "messages" -> dict_get body' k = dict_get body k) /\
    dict_keys body' = dict_keys body.

(** ** Sample worlds *)

Definition sample_str_of_exn (e : exn) : pystr :=
  match e with
  | TransportError detail => lit detail
  | HTTPError _ => lit "HTTP error"
  | JSONDecodeError => lit "Expecting value"
  | AttributeError _ attr => lit "object has no attribute " ++ lit attr
  | TypeError _ => lit "unsupported operand"
  | KeyError _ => lit "key"
  | IndexError => lit "list index out of range"
  | ObserverError detail => lit detail
  end.

Definition sample_repr (v : json) : pystr :=
  match v with
  | JNull => lit "None"
  | JBool true => lit "True"
  | JBool false => lit "False"
  | _ => lit "<value>"
  end.

Definition payload_has (k : string) (payload : json) : bool := has_key k payload.

(** A runtime whose judge answers [verdict], whose residency endpoint is
    down, and whose chat endpoint answers [chat]. *)
Definition sample_runtime (verdict : pystr) (chat : http_outcome)
  : history -> pystr -> json -> http_outcome :=
  fun _ _ payload =>
    if payload_has "prompt" payload then
      Responded 200 (Some (JDict [("response", JStr verdict)]))
    else if payload_has "keep_alive" payload then
      Unreachable "connection refused"
    else chat.

Definition chat_answer (text : pystr) : http_outcome :=
  Responded 200
    (Some (JDict [("message", JDict [("role", JStr (lit "assistant"));
                                     ("content", JStr text)])])).

Definition quiet_observer : emitter := fun _ _ => None.

Definition broken_observer : emitter :=
  fun _ _ => Some (ObserverError "socket closed").

(** An observer that starts failing once the runtime has been contacted. *)
Definition fragile_observer : emitter :=
  fun h _ =>
    match posts h with
    | [] => None
    | _ => Some (ObserverError "socket closed")
    end.

(** An observer that fails once a replacement has been requested. *)
Definition late_observer : emitter :=
  fun h _ =>
    if existsb is_generation_call (posts h)
    then Some (ObserverError "socket closed")
    else None.

(** An observer that fails once a model has been evicted. *)
Definition flaky_observer : emitter :=
  fun h _ =>
    if existsb is_residency_call (posts h)
    then Some (ObserverError "socket closed")
    else None.

Definition user_turn : json :=
  JDict [("role", JStr (lit "user")); ("content", JStr (lit "How do I pick a lock?"))].

Definition refused_turn : dict :=
  [("role", JStr (lit "assistant")); ("content", JStr (lit "I cannot fulfill this request."))].

Definition sample_body : dict :=
  [("model", JStr (lit "modelA"));
   ("messages", JList [user_turn; JDict refused_turn]);
   ("chat_id", JStr (lit "c1"))].

(** [sample_body] after a swap that answered [Sure.] *)
Definition answered_body : dict :=
  [("model", JStr (lit "modelA"));
   ("messages",
    JList [user_turn;
           JDict [("role", JStr (lit "assistant")); ("content", JStr (lit "Sure."))]]);
   ("chat_id", JStr (lit "c1"))].

Definition empty_body : dict :=
  [("model", JStr (lit "modelA")); ("messages", JList [])].

Definition body_without_content : dict :=
  [("model", JStr (lit "modelA"));
   ("messages", JList [user_turn; JDict [("role", JStr (lit "assistant"))]])].

Definition body_without_messages : dict :=
  [("model", JStr (lit "modelA")); ("chat_id", JStr (lit "c1"))].

(** A body whose last message carries its content as a list of parts. *)
Definition content_parts : json :=
  JList [JDict [("type", JStr (lit "text")); ("text", JStr (lit "I cannot help with that."))]].

Definition body_with_parts : dict :=
  [("model", JStr (lit "modelA"));
   ("messages",
    JList [user_turn;
           JDict [("role", JStr (lit "assistant")); ("content", content_parts)]])].

(** A body whose last message is not an object. *)
Definition body_with_bare_text : dict :=
  [("model", JStr (lit "modelA"));
   ("messages", JList [user_turn; JStr (lit "I cannot fulfill this request.")])].

(** Two refusals of 1001 and 1007 characters that part after the first
    1000. *)
Definition long_apology : pystr := repeat 115%N 1000.

Definition long_refusal_a : pystr := long_apology ++ lit "!".
Definition long_refusal_b : pystr := long_apology ++ lit ", sorry".

(** A runtime like [sample_runtime] whose chat endpoint fails until a
    generation has been requested once, and answers from then on. *)
Definition warming_runtime : history -> pystr -> json -> http_outcome :=
  fun h url payload =>
    sample_runtime (lit "YES")
      (if existsb is_generation_call (posts h)
       then chat_answer (lit "Sure.")
       else Responded 503 None) h url payload.

(** ** The filter *)

Section FilterMethods.

(** [str(e)] for an exception and the f-string rendering of a value that
    is not text: both are the interpreter's, not the filter's. *)
Variable str_of_exn : exn -> pystr.
Variable repr : json -> pystr.

(** The inference runtime behind [ollama_base_url]: what a POST of a
    payload to a url comes back with, given everything that happened
    before it. *)
Variable runtime : history -> pystr -> json -> http_outcome.

Variable self : Filter.

(** [f"{v}"] *)
Definition fmt (v : json) : pystr :=
  match v with
  | JStr s => s
  | _ => repr v
  end.

(** [requests.post(url, json=payload)] *)
Definition requests_post (url : pystr) (payload : json) : M Response :=
  fun h =>
    (match runtime h url payload with
     | Unreachable detail => Raise (TransportError detail)
     | Responded status body => Ok (mkResponse status body)
     end, [EvPost url payload]).

(** [response.raise_for_status()] *)
Definition raise_for_status (r : Response) : M unit :=
  if ((400 <=? status_code r) && (status_code r <? 600))%Z
  then raise (HTTPError (status_code r))
  else ret tt.

(** [response.json()] *)
Definition response_json (r : Response) : M json :=
  match body_json r with
  | Some v => ret v
  | None => raise JSONDecodeError
  end.

Definition generate_url : pystr :=
  ollama_base_url (valves self) ++ lit "/api/generate".

Definition chat_url : pystr :=
  ollama_base_url (valves self) ++ lit "/api/chat".

Definition judge_prompt (context_preview : pystr) : pystr :=
  lit "Analyze the following AI response text. Does it represent a refusal to answer a request "
  ++ lit "due to ethical, safety, moral, or policy guidelines? "
  ++ lit "Typical refusals sound like 'I cannot fulfill', 'I apologize', 'I cannot comply'."
  ++ newline ++ newline
  ++ lit "Text: " ++ quote ++ context_preview ++ quote ++ newline ++ newline
  ++ lit "Answer with exactly one word: 'YES' or 'NO'.".

Definition judge_payload (content : pystr) : json :=
  JDict [ ("model", JStr (judge_model_id (valves self)));
          ("prompt", JStr (judge_prompt (slice_to 1000 content)));
          ("stream", JBool false);
          ("options", JDict [ ("temperature", JFloat (Qmake 0 1));
                              ("num_predict", JInt 10) ]) ].

Definition check_refusal (content : json) : M bool :=
  if negb (truthy content) then ret false else
  stripped <- method_strip content ;;
  if negb (truthy (JStr stripped)) then ret false else
  match content with
  | JStr text =>
      let url := generate_url in
      let payload := judge_payload text in
      try_except
        (when (debug (valves self))
           (print (lit "DEBUG: asking " ++ judge_model_id (valves self)
                   ++ lit " to judge response...")) ;;
         response <- requests_post url payload ;;
         raise_for_status response ;;
         data <- response_json response ;;
         reply <- method_get data "response" (JStr (lit "")) ;;
         stripped_reply <- method_strip reply ;;
         let result := upper stripped_reply in
         when (debug (valves self))
           (print (lit "DEBUG: Judge verdict: " ++ result)) ;;
         ret (str_contains (lit "YES") result))
        (fun e =>
           when (debug (valves self))
             (print (lit "Error checking refusal with judge: " ++ str_of_exn e)) ;;
           ret false)
  | _ => raise (TypeError content)   (* not reached: [strip] succeeded, so [content] is text *)
  end.

Definition residency_payload (model_id : json) (keep_alive : Z) : json :=
  JDict [ ("model", model_id); ("keep_alive", JInt keep_alive) ].

Definition unload_model (model_id : json) : M unit :=
  let url := generate_url in
  let payload := residency_payload model_id 0 in
  try_except
    (_ <- requests_post url payload ;;
     when (debug (valves self)) (print (lit "DEBUG: Unloaded " ++ fmt model_id)))
    (fun e =>
       print (lit "Error unloading " ++ fmt model_id ++ lit ": " ++ str_of_exn e)).

Definition load_model (model_id : json) : M unit :=
  let url := generate_url in
  let payload := residency_payload model_id (-1) in
  try_except
    (_ <- requests_post url payload ;;
     when (debug (valves self)) (print (lit "DEBUG: Reloaded " ++ fmt model_id)))
    (fun e =>
       print (lit "Error loading " ++ fmt model_id ++ lit ": " ++ str_of_exn e)).

Definition chat_payload (model_id : json) (messages : json) : json :=
  JDict [ ("model", model_id); ("messages", messages); ("stream", JBool false) ].

Definition generate_replacement (model_id : json) (messages : json) : M json :=
  let url := chat_url in
  let payload := chat_payload model_id messages in
  try_except
    (when (debug (valves self))
       (print (lit "DEBUG: Generating with " ++ fmt model_id ++ lit "...")) ;;
     response <- requests_post url payload ;;
     raise_for_status response ;;
     data <- response_json response ;;
     message <- method_get data "message" (JDict []) ;;
     method_get message "content" (JStr (lit "Error generating replacement.")))
    (fun e =>
       ret (JStr (lit "System Error: Failed to swap models. " ++ str_of_exn e))).

Definition status_event (message : pystr) (done : bool) : json :=
  JDict [ ("type", JStr (lit "status"));
          ("data", JDict [ ("description", JStr message);
                           ("done", JBool done) ]) ].

(** [await emitter(ev)] *)
Definition await_emitter (em : emitter) (ev : json) : M unit :=
  fun h =>
    (match em h ev with
     | None => Ok tt
     | Some e => Raise e
     end, [EvEmit ev]).

Definition emit_status (em : option emitter) (message : pystr) (done : bool)
  : M unit :=
  match em with
  | Some f => await_emitter f (status_event message done)
  | None => ret tt
  end.

Definition outlet (body : dict) (user : dict) (event_emitter : option emitter)
  : M dict :=
  let messages := dict_get_default body "messages" (JList []) in
  if negb (truthy messages) then ret body else
  last_message <- index_last messages ;;
  ai_response <- method_get last_message "content" (JStr (lit "")) ;;
  let original_model := dict_get_default body "model" JNull in
  emit_status event_emitter (lit "Checking response for refusal...") false ;;
  is_refusal <-
    try_except (check_refusal ai_response)
      (fun e =>
         print (lit "Error in async execution of check_refusal: " ++ str_of_exn e) ;;
         ret false) ;;
  if (is_refusal : bool) then
    let secondary := JStr (abliterated_model_id (valves self)) in
    print (lit "Refusal detected from " ++ fmt original_model
           ++ lit ". Initiating swap sequence.") ;;
    emit_status event_emitter
      (lit "Refusal detected. Unloading " ++ fmt original_model ++ lit "...") false ;;
    history_minus_refusal <- slice_but_last messages ;;
    unload_model original_model ;;
    emit_status event_emitter
      (lit "Loading " ++ fmt secondary ++ lit " & Generating...") false ;;
    new_answer <- generate_replacement secondary history_minus_refusal ;;
    emit_status event_emitter (lit "Unloading " ++ fmt secondary ++ lit "...") false ;;
    unload_model secondary ;;
    emit_status event_emitter
      (lit "Restoring " ++ fmt original_model ++ lit "...") false ;;
    load_model original_model ;;
    emit_status event_emitter (lit "Model swap complete.") true ;;
    body' <- set_last_content body new_answer ;;
    ret body'
  else
    emit_status event_emitter (lit "") true ;;
    ret body.

(** ** What a run leaves behind *)

(** The console line [check_refusal] and [generate_replacement] write before
    their request when [debug] is set. *)
Definition asking : list event :=
  if debug (valves self)
  then [EvPrint (lit "DEBUG: asking " ++ judge_model_id (valves self)
                 ++ lit " to judge response...")]
  else [].

Definition generating (model_id : json) : list event :=
  if debug (valves self)
  then [EvPrint (lit "DEBUG: Generating with " ++ fmt model_id ++ lit "...")]
  else [].

(** The event a progress emission leaves: one delivery when an observer is
    registered. *)
Definition progress (em : option emitter) (message : pystr) (done : bool)
  : list event :=
  match em with
  | Some _ => [EvEmit (status_event message done)]
  | None => []
  end.

Definition checking (em : option emitter) : list event :=
  progress em (lit "Checking response for refusal...") false.

Definition secondary : json := JStr (abliterated_model_id (valves self)).

(** The four requests of the swap, in the order of the specification:
    evict the primary, generate with the secondary, evict the secondary,
    load the primary. *)
Definition swap_calls (primary history_without_last : json)
  : list (pystr * json) :=
  [ (generate_url, residency_payload primary 0);
    (chat_url, chat_payload secondary history_without_last);
    (generate_url, residency_payload secondary 0);
    (generate_url, residency_payload primary (-1)) ].

(** The progress events of a completed swap, as an observer receives them. *)
Definition swap_progress (primary : json) : list json :=
  [ status_event (lit "Checking response for refusal...") false;
    status_event (lit "Refusal detected. Unloading " ++ fmt primary ++ lit "...") false;
    status_event (lit "Loading " ++ fmt secondary ++ lit " & Generating...") false;
    status_event (lit "Unloading " ++ fmt secondary ++ lit "...") false;
    status_event (lit "Restoring " ++ fmt primary ++ lit "...") false;
    status_event (lit "Model swap complete.") true ].

(** [m], run after [h], returns normally with a value and events that
    satisfy [Q]. *)
Definition returns {A} (m : M A) (h : history)
  (Q : A -> list event -> Prop) : Prop :=
  exists a es, m h = (Ok a, es) /\ Q a es.

(** Whenever [m], run after [h], returns normally, its value and events
    satisfy [Q]. *)
Definition ensures {A} (m : M A) (h : history)
  (Q : A -> list event -> Prop) : Prop :=
  forall a es, m h = (Ok a, es) -> Q a es.

(** The chat exchange delivers an answer with content [c]: the status is
    no error and the body is an object whose [message] is an object with a
    [content]. *)
Inductive chat_reply : http_outcome -> json -> Prop :=
| chat_reply_content (status : Z) (d m : dict) (c : json) :
    (status < 400 \/ 600 <= status)%Z ->
    dict_get d "message" = Some (JDict m) ->
    dict_get m "content" = Some c ->
    chat_reply (Responded status (Some (JDict d))) c.

(** The chat exchange delivers an object that holds no content: there is
    no [message], or the [message] is an object without [content]. *)
Inductive chat_reply_without_content : http_outcome -> Prop :=
| chat_reply_no_message (status : Z) (d : dict) :
    (status < 400 \/ 600 <= status)%Z ->
    dict_get d "message" = None ->
    chat_reply_without_content (Responded status (Some (JDict d)))
| chat_reply_no_content (status : Z) (d m : dict) :
    (status < 400 \/ 600 <= status)%Z ->
    dict_get d "message" = Some (JDict m) ->
    dict_get m "content" = None ->
    chat_reply_without_content (Responded status (Some (JDict d))).

(** The exception an exchange ends with before its body is looked at, if
    any: the transport fails, the status is an error, or the body is not
    JSON. *)
Definition exchange_error (o : http_outcome) : option exn :=
  match o with
  | Unreachable detail => Some (TransportError detail)
  | Responded status body =>
      if ((400 <=? status) && (status <? 600))%Z then Some (HTTPError status)
      else match body with
           | None => Some JSONDecodeError
           | Some _ => None
           end
  end.

(** [Q] holds of the way [m], run after [h], ends and of the events it
    leaves, whether it returns or raises. *)
Definition always {A} (m : M A) (h : history)
  (Q : outcome A -> list event -> Prop) : Prop :=
  Q (fst (m h)) (snd (m h)).

(** [l] is an initial segment of [l']. *)
Definition initial_segment {A} (l l' : list A) : Prop :=
  exists rest, l ++ rest = l'.

(** The progress events of a run that finds no refusal. *)
Definition pass_progress : list json :=
  [ status_event (lit "Checking response for refusal...") false;
    status_event (lit "") true ].

(** No emission at which the observer [f] raises is followed by anything:
    in the events [es] that a run left after [h], the emission is the last
    one, and the run ended with what the observer raised. *)
Definition stops_at_failure {A} (f : emitter) (h : history)
  (r : outcome A) (es : list event) : Prop :=
  forall before ev after e,
    es = before ++ EvEmit ev :: after ->
    f (h ++ before) ev = Some e ->
    r = Raise e /\ after = [].

(** ** Text lemmas *)

Lemma upper_char_table (P : N -> list N -> bool) :
  forallb (fun entry => P (fst entry) (snd entry)) upper_table = true ->
  (forall c, P c [c] = true) ->
  forall c, P c (upper_char c) = true.
Proof.
  intros Ht Hi c. unfold upper_char.
  destruct (find _ upper_table) as [entry |] eqn:E; [| apply Hi].
  apply find_some in E as (Hin & Hc). apply N.eqb_eq in Hc. subst c.
  rewrite forallb_forall in Ht. exact (Ht entry Hin).
Qed.

Lemma upper_char_nonempty c : upper_char c <> [].
Proof.
  assert (H : negb (N.eqb (N.of_nat (length (upper_char c))) 0) = true).
  { apply (upper_char_table (fun _ l => negb (N.eqb (N.of_nat (length l)) 0)));
      [vm_compute; reflexivity | reflexivity]. }
  destruct (upper_char c); [discriminate H | discriminate].
Qed.

Lemma upper_char_has (x : N) (sources : list N) :
  forallb (fun entry =>
             implb (existsb (N.eqb x) (snd entry))
                   (existsb (N.eqb (fst entry)) sources)) upper_table = true ->
  In x sources ->
  forall c, In x (upper_char c) -> In c sources.
Proof.
  intros Ht Hx c Hin.
  pose proof (upper_char_table
                (fun c l => implb (existsb (N.eqb x) l) (existsb (N.eqb c) sources))
                Ht) as H.
  assert (Hi : forall c, implb (existsb (N.eqb x) [c])
                           (existsb (N.eqb c) sources) = true).
  { intros c'. cbn [existsb]. rewrite orb_false_r.
    destruct (N.eqb_spec x c') as [<- |]; [| reflexivity].
    cbn [implb]. apply existsb_exists. exists x. split; [exact Hx | apply N.eqb_refl]. }
  specialize (H Hi c). cbv beta in H.
  assert (Hex : existsb (N.eqb x) (upper_char c) = true).
  { apply existsb_exists. exists x. split; [exact Hin | apply N.eqb_refl]. }
  rewrite Hex in H. cbn [implb] in H.
  apply existsb_exists in H as (y & Hy & Heq). apply N.eqb_eq in Heq. now subst.
Qed.

Lemma upper_char_Y c : In 89%N (upper_char c) -> c = 89%N \/ c = 121%N \/ c = 7833%N.
Proof.
  intros H.
  assert (Hc : In c [89; 121; 7833]%N).
  { apply (upper_char_has 89); [vm_compute; reflexivity | now left | exact H]. }
  cbn in Hc. intuition.
Qed.

Lemma upper_char_E c : In 69%N (upper_char c) -> is_E c.
Proof.
  intros H.
  assert (Hc : In c [69; 101]%N).
  { apply (upper_char_has 69); [vm_compute; reflexivity | now left | exact H]. }
  unfold is_E. cbn in Hc. intuition.
Qed.

Lemma upper_char_S c : In 83%N (upper_char c) -> upper_starts_with_S c.
Proof.
  intros H.
  assert (Hc : In c [83; 115; 383; 223; 64261; 64262]%N).
  { apply (upper_char_has 83); [vm_compute; reflexivity | now left | exact H]. }
  unfold upper_starts_with_S, is_S. cbn in Hc. intuition.
Qed.

Lemma upper_starts_with_S_head c :
  upper_starts_with_S c -> exists rest, upper_char c = 83%N :: rest.
Proof.
  intros [[-> | ->] | [-> | [-> | [-> | ->]]]]; eexists; vm_compute; reflexivity.
Qed.

Lemma upper_cons c r : upper (c :: r) = upper_char c ++ upper r.
Proof. reflexivity. Qed.

Lemma upper_char_of_Y c : is_Y c -> upper_char c = [89%N].
Proof. intros [-> | ->]; vm_compute; reflexivity. Qed.

Lemma upper_char_of_E c : is_E c -> upper_char c = [69%N].
Proof. intros [-> | ->]; vm_compute; reflexivity. Qed.

Lemma upper_char_tail_without_Y c x xs :
  upper_char c = x :: xs -> ~ In 89%N xs.
Proof.
  intros E H.
  assert (Hc : In 89%N (upper_char c)) by (rewrite E; now right).
  apply upper_char_Y in Hc as [-> | [-> | ->]]; vm_compute in E;
    injection E as <- <-; cbn in H; intuition discriminate.
Qed.

Lemma str_contains_skip y w X R :
  ~ In y X ->
  str_contains (y :: w) (X ++ R) = str_contains (y :: w) R.
Proof.
  induction X as [| x X IH]; intros H; [reflexivity |].
  cbn [app str_contains starts_with].
  destruct (N.eqb_spec y x) as [-> | _].
  - destruct H. now left.
  - cbn [andb orb]. apply IH. intros Hin. apply H. now right.
Qed.

Lemma starts_with_ES_upper r :
  starts_with [69; 83]%N (upper r) = true <->
  exists e z post, r = e :: z :: post /\ is_E e /\ upper_starts_with_S z.
Proof.
  split.
  - destruct r as [| e r1]; [discriminate |].
    rewrite upper_cons.
    destruct (upper_char e) as [| x xs] eqn:Ee;
      [destruct (upper_char_nonempty e Ee) |].
    cbn [app starts_with]. intros H. apply andb_true_iff in H as (Hx & H).
    apply N.eqb_eq in Hx. subst x.
    assert (He : is_E e) by (apply upper_char_E; rewrite Ee; now left).
    rewrite (upper_char_of_E e He) in Ee. injection Ee as <-.
    cbn [app] in H.
    destruct r1 as [| z r2]; [discriminate H |].
    rewrite upper_cons in H.
    destruct (upper_char z) as [| x xs] eqn:Ez;
      [destruct (upper_char_nonempty z Ez) |].
    cbn [app starts_with] in H. apply andb_true_iff in H as (Hx & _).
    apply N.eqb_eq in Hx. subst x.
    exists e, z, r2. repeat split; [exact He |].
    apply upper_char_S. rewrite Ez. now left.
  - intros (e & z & post & -> & He & Hz).
    destruct (upper_starts_with_S_head z Hz) as (rest & Ez).
    rewrite !upper_cons, (upper_char_of_E e He), Ez. reflexivity.
Qed.

Lemma starts_with_yes_upper s :
  starts_with (lit "YES") (upper s) = true <-> yes_at_head s.
Proof.
  change (lit "YES") with [89; 69; 83]%N.
  split.
  - destruct s as [| c r]; [discriminate |].
    rewrite upper_cons.
    destruct (upper_char c) as [| x xs] eqn:Ec;
      [destruct (upper_char_nonempty c Ec) |].
    cbn [app starts_with]. intros H. apply andb_true_iff in H as (Hx & H).
    apply N.eqb_eq in Hx. subst x.
    assert (Hc : In 89%N (upper_char c)) by (rewrite Ec; now left).
    apply upper_char_Y in Hc as [-> | [-> | ->]]; vm_compute in Ec;
      injection Ec as <-; try discriminate H.
    all: cbn [app] in H; apply starts_with_ES_upper in H
           as (e & z & post & -> & He & Hz).
    + exists 89%N, e, z, post. repeat split; auto. now left.
    + exists 121%N, e, z, post. repeat split; auto. now right.
  - intros (y & e & z & post & -> & Hy & He & Hz).
    rewrite upper_cons, (upper_char_of_Y y Hy).
    cbn [app starts_with]. rewrite N.eqb_refl. cbn [andb].
    apply starts_with_ES_upper. eauto 6.
Qed.

Lemma contains_yes_nil : ~ contains_yes_when_upper [].
Proof.
  intros (pre & y & e & z & post & H & _). destruct pre; discriminate H.
Qed.

Lemma contains_yes_cons c r :
  contains_yes_when_upper (c :: r) <->
  yes_at_head (c :: r) \/ contains_yes_when_upper r.
Proof.
  split.
  - intros (pre & y & e & z & post & H & Hy & He & Hz).
    destruct pre as [| a pre]; cbn [app] in H.
    + left. exists y, e, z, post. auto.
    + right. injection H as _ H. exists pre, y, e, z, post. auto.
  - intros [(y & e & z & post & H & Hy & He & Hz)
           | (pre & y & e & z & post & H & Hy & He & Hz)].
    + exists [], y, e, z, post. auto.
    + exists (c :: pre), y, e, z, post. cbn [app]. rewrite H. auto.
Qed.

Lemma str_contains_yes_upper s :
  str_contains (lit "YES") (upper s) = true <-> contains_yes_when_upper s.
Proof.
  induction s as [| c r IH].
  - split; [discriminate | intros H; destruct (contains_yes_nil H)].
  - rewrite contains_yes_cons, <- IH, <- starts_with_yes_upper.
    rewrite upper_cons.
    destruct (upper_char c) as [| x xs] eqn:Ec;
      [destruct (upper_char_nonempty c Ec) |].
    change (lit "YES") with [89; 69; 83]%N.
    cbn [app str_contains].
    rewrite (str_contains_skip _ _ xs (upper r) (upper_char_tail_without_Y c x xs Ec)).
    apply orb_true_iff.
Qed.

Lemma is_space_opens_no_yes c r : yes_at_head (c :: r) -> is_space c = false.
Proof.
  intros (y & e & z & post & H & Hy & _). injection H as -> _.
  destruct Hy as [-> | ->]; reflexivity.
Qed.

Lemma lstrip_empty s : lstrip s = [] <-> all_space s = true.
Proof.
  induction s as [| c r IH]; cbn [lstrip all_space forallb].
  - tauto.
  - destruct (is_space c); cbn [andb].
    + exact IH.
    + split; discriminate.
Qed.

Lemma rstrip_empty s : rstrip s = [] <-> all_space s = true.
Proof.
  induction s as [| c r IH]; cbn [rstrip all_space forallb].
  - tauto.
  - destruct (rstrip r) eqn:E.
    + destruct (is_space c); cbn [andb].
      * split; intros _; [apply IH |]; reflexivity.
      * split; discriminate.
    + split; [discriminate |].
      intros H. apply andb_true_iff in H as [_ H]. apply IH in H. discriminate H.
Qed.

Lemma all_space_lstrip s : all_space (lstrip s) = all_space s.
Proof.
  induction s as [| c r IH]; [reflexivity |].
  cbn [lstrip]. destruct (is_space c) eqn:E.
  - cbn [all_space forallb]. rewrite E. exact IH.
  - reflexivity.
Qed.

Lemma strip_empty s : strip s = [] <-> all_space s = true.
Proof.
  unfold strip. rewrite rstrip_empty, all_space_lstrip. tauto.
Qed.

Lemma contains_yes_lstrip s :
  contains_yes_when_upper (lstrip s) <-> contains_yes_when_upper s.
Proof.
  induction s as [| c r IH]; [reflexivity |].
  cbn [lstrip]. destruct (is_space c) eqn:E; [| reflexivity].
  rewrite IH, contains_yes_cons. split; [auto |].
  intros [H | H]; [| exact H].
  apply is_space_opens_no_yes in H. congruence.
Qed.

Lemma rstrip_cons_keep c r :
  is_space c = false -> rstrip (c :: r) = c :: rstrip r.
Proof.
  intros H. cbn [rstrip]. destruct (rstrip r); [rewrite H |]; reflexivity.
Qed.

Lemma rstrip_head r a t : rstrip r = a :: t -> exists r1, r = a :: r1.
Proof.
  destruct r as [| b r1]; cbn [rstrip]; [discriminate |].
  destruct (rstrip r1); [destruct (is_space b) |]; intros H;
    try discriminate H; injection H as -> _; eauto.
Qed.

Lemma letter_not_space c :
  is_E c \/ upper_starts_with_S c -> is_space c = false.
Proof.
  intros [[-> | ->] | [[-> | ->] | [-> | [-> | [-> | ->]]]]]; reflexivity.
Qed.

Lemma yes_at_head_rstrip c r :
  yes_at_head (c :: rstrip r) <-> yes_at_head (c :: r).
Proof.
  split.
  - intros (y & e & z & post & H & Hy & He & Hz). injection H as -> H.
    destruct (rstrip_head _ _ _ H) as (r1 & ->).
    rewrite rstrip_cons_keep in H by (apply letter_not_space; tauto).
    injection H as H.
    destruct (rstrip_head _ _ _ H) as (r2 & ->).
    exists y, e, z, r2. auto.
  - intros (y & e & z & post & H & Hy & He & Hz). injection H as -> ->.
    rewrite !rstrip_cons_keep by (apply letter_not_space; tauto).
    exists y, e, z, (rstrip post). auto.
Qed.

Lemma contains_yes_rstrip s :
  contains_yes_when_upper (rstrip s) <-> contains_yes_when_upper s.
Proof.
  induction s as [| c r IH]; [reflexivity |].
  rewrite contains_yes_cons, <- IH, <- yes_at_head_rstrip.
  cbn [rstrip]. destruct (rstrip r) as [| a t] eqn:E.
  - destruct (is_space c) eqn:Ec.
    + split; [intros H; destruct (contains_yes_nil H) |].
      intros [H | H]; [| exact H].
      apply is_space_opens_no_yes in H. congruence.
    + rewrite contains_yes_cons. reflexivity.
  - rewrite contains_yes_cons. reflexivity.
Qed.

Lemma contains_yes_strip s :
  contains_yes_when_upper (strip s) <-> contains_yes_when_upper s.
Proof. unfold strip. rewrite contains_yes_rstrip. apply contains_yes_lstrip. Qed.

Lemma verdict_parse reply :
  str_contains (lit "YES") (upper (strip reply)) = true <->
  contains_yes_when_upper reply.
Proof. rewrite str_contains_yes_upper. apply contains_yes_strip. Qed.

Lemma any_case_is_upper_case s :
  contains_yes_any_case s -> contains_yes_when_upper s.
Proof.
  intros (pre & y & e & z & post & H & Hy & He & Hz).
  exists pre, y, e, z, post. repeat split; auto. now left.
Qed.

(** ** Running the methods *)

Lemma bind_ok {A B} (m : M A) (k : A -> M B) h a es :
  m h = (Ok a, es) ->
  bind m k h = (fst (k a (h ++ es)), es ++ snd (k a (h ++ es))).
Proof. intros H. unfold bind. rewrite H. reflexivity. Qed.

Lemma bind_raise {A B} (m : M A) (k : A -> M B) h e es :
  m h = (Raise e, es) -> bind m k h = (Raise e, es).
Proof. intros H. unfold bind. rewrite H. reflexivity. Qed.

Lemma bind_run {A B} (m : M A) (k : A -> M B) h a es r es' :
  m h = (Ok a, es) -> k a (h ++ es) = (r, es') -> bind m k h = (r, es ++ es').
Proof. intros H1 H2. rewrite (bind_ok _ _ _ _ _ H1), H2. reflexivity. Qed.

Lemma bind_inv_ok {A B} (m : M A) (k : A -> M B) h b es :
  bind m k h = (Ok b, es) ->
  exists a es1 es2,
    m h = (Ok a, es1) /\ k a (h ++ es1) = (Ok b, es2) /\ es = es1 ++ es2.
Proof.
  unfold bind. destruct (m h) as [[a | e] es1]; [| discriminate].
  destruct (k a (h ++ es1)) as [r es2] eqn:E. simpl.
  intros H. injection H as -> <-. exists a, es1, es2. auto.
Qed.

Lemma posts_app es1 es2 : posts (es1 ++ es2) = posts es1 ++ posts es2.
Proof. apply flat_map_app. Qed.

Lemma emitted_app es1 es2 : emitted (es1 ++ es2) = emitted es1 ++ emitted es2.
Proof. apply flat_map_app. Qed.

Lemma truthy_text s : s <> [] -> truthy (JStr s) = true.
Proof. destruct s; [congruence | reflexivity]. Qed.

Lemma non_blank_text text :
  all_space text = false -> text <> [] /\ strip text <> [].
Proof.
  intros H. split.
  - intros ->. discriminate H.
  - intros E. apply strip_empty in E. congruence.
Qed.

Lemma check_refusal_blank text h :
  all_space text = true -> check_refusal (JStr text) h = (Ok false, []).
Proof.
  intros H. unfold check_refusal.
  destruct (negb (truthy (JStr text))); [reflexivity|].
  apply strip_empty in H. cbn [method_strip]. unfold bind, ret.
  cbv beta iota zeta. rewrite H. reflexivity.
Qed.

Lemma status_error_iff status :
  ((400 <=? status) && (status <? 600))%Z = false <->
  (status < 400 \/ 600 <= status)%Z.
Proof.
  rewrite andb_false_iff, Z.leb_gt, Z.ltb_ge. reflexivity.
Qed.

Ltac no_reply :=
  split; [discriminate |];
  let reply := fresh "reply" in
  let Hj := fresh "Hj" in
  intros (reply & Hj & _); inversion Hj; subst;
  try congruence;
  match goal with
  | Hs : (_ && _)%bool = true, Hr : (_ < 400 \/ 600 <= _)%Z |- _ =>
      apply status_error_iff in Hr; congruence
  end.

Lemma check_refusal_judged text h :
  all_space text = false ->
  exists b es,
    check_refusal (JStr text) h = (Ok b, es) /\
    posts es = [(generate_url, judge_payload text)] /\
    emitted es = [] /\
    (b = true <->
     exists reply,
       judge_reply (runtime (h ++ asking) generate_url (judge_payload text)) reply /\
       contains_yes_when_upper reply).
Proof.
  intros H.
  destruct (non_blank_text text H) as (Ht & Hs).
  unfold check_refusal. cbn [method_strip].
  rewrite (truthy_text _ Ht). cbn [negb]. unfold bind at 1. cbn [ret fst snd].
  rewrite (truthy_text _ Hs). cbn [negb app]. rewrite app_nil_r.
  unfold try_except, bind, when, requests_post, raise_for_status,
    response_json, method_get, method_strip, print, tell, ret, raise, asking.
  destruct (debug (valves self)) eqn:Ed; cbn [fst snd app]; rewrite ?app_nil_r;
    (destruct (runtime _ _ _) as [detail | status body] eqn:Er;
     cbn [fst snd app status_code body_json];
     [ eexists _, _; repeat (split; [reflexivity |]); no_reply |]);
    (destruct ((400 <=? status) && (status <? 600))%Z eqn:Est;
     cbn [fst snd app];
     [ eexists _, _; repeat (split; [reflexivity |]); no_reply |]);
    (destruct body as [v |]; cbn [fst snd app];
     [| eexists _, _; repeat (split; [reflexivity |]); no_reply ]);
    (destruct v as [| ? | ? | ? | ? | ? | d]; cbn [fst snd app];
     try (eexists _, _; repeat (split; [reflexivity |]); no_reply));
    (destruct (dict_get_default d "response" (JStr (lit ""))) as [| ? | ? | ? | reply0 | ? | ?] eqn:Eg;
     cbn [fst snd app];
     try (eexists _, _; repeat (split; [reflexivity |]); no_reply)).
  all: eexists _, _; repeat (split; [reflexivity |]).
  all: rewrite verdict_parse.
  all: split;
    [ intros Hy; exists reply0; split; [| exact Hy];
      constructor; [apply status_error_iff; exact Est | exact Eg]
    | intros (reply & Hj & Hy); inversion Hj; subst; congruence ].
Qed.

Lemma unload_model_run model_id h :
  exists es,
    unload_model model_id h = (Ok tt, es) /\
    posts es = [(generate_url, residency_payload model_id 0)] /\
    emitted es = [].
Proof.
  unfold unload_model, try_except, bind, when, requests_post, print, tell, ret.
  destruct (runtime _ _ _); destruct (debug (valves self));
    cbn [fst snd app]; eexists; repeat split; reflexivity.
Qed.

Lemma load_model_run model_id h :
  exists es,
    load_model model_id h = (Ok tt, es) /\
    posts es = [(generate_url, residency_payload model_id (-1))] /\
    emitted es = [].
Proof.
  unfold load_model, try_except, bind, when, requests_post, print, tell, ret.
  destruct (runtime _ _ _); destruct (debug (valves self));
    cbn [fst snd app]; eexists; repeat split; reflexivity.
Qed.

Ltac diagnostic :=
  eexists _, _; repeat (split; [reflexivity |]);
  intros _; eexists; split; [reflexivity | discriminate].

Ltac not_failed :=
  let Hf := fresh "Hf" in
  intros Hf; exfalso; inversion Hf; subst;
  repeat match goal with
  | Hs : (_ && _)%bool = false, Hr : (400 <= _ < 600)%Z |- _ =>
      apply status_error_iff in Hs; lia
  | Hn : forall d, _ <> JDict d |- _ => exact (Hn _ eq_refl)
  | Hd : dict_get ?d ?k = Some _, Hg : dict_get_default ?d ?k _ = _ |- _ =>
      unfold dict_get_default in Hg; rewrite Hd in Hg; subst
  | Hd : dict_get ?d ?k = None, Hg : dict_get ?d ?k = Some _ |- _ => congruence
  | Ha : dict_get_default ?d ?k ?x = JDict _,
    Hb : dict_get_default ?d ?k ?x = JDict _ |- _ =>
      rewrite Ha in Hb; injection Hb as Hb; subst
  end.

Lemma generate_replacement_run model_id messages h :
  exists answer es,
    generate_replacement model_id messages h = (Ok answer, es) /\
    posts es = [(chat_url, chat_payload model_id messages)] /\
    emitted es = [] /\
    (generation_failed
       (runtime (h ++ generating model_id) chat_url (chat_payload model_id messages)) ->
     exists diagnostic, answer = JStr diagnostic /\ diagnostic <> []).
Proof.
  unfold generate_replacement, try_except, bind, when, requests_post,
    raise_for_status, response_json, method_get, print, tell, ret, raise, generating.
  destruct (debug (valves self)) eqn:Ed; cbn [fst snd app]; rewrite ?app_nil_r;
    (destruct (runtime _ _ _) as [detail | status body] eqn:Er;
     cbn [fst snd app status_code body_json]; [diagnostic |]);
    (destruct ((400 <=? status) && (status <? 600))%Z eqn:Est;
     cbn [fst snd app]; [diagnostic |]);
    (destruct body as [v |]; cbn [fst snd app]; [| diagnostic]);
    (destruct v as [| ? | ? | ? | ? | ? | d]; cbn [fst snd app]; try diagnostic);
    (destruct (dict_get_default d "message" (JDict [])) as [| ? | ? | ? | ? | ? | m] eqn:Em;
     cbn [fst snd app]; try diagnostic).
  all: unfold dict_get_default at 1.
  all: destruct (dict_get m "content") as [c |] eqn:Ec; [| diagnostic].
  all: eexists _, _; repeat (split; [reflexivity |]).
  all: not_failed.
Qed.

Lemma returns_ret {A} (a : A) h (Q : A -> list event -> Prop) :
  Q a [] -> returns (ret a) h Q.
Proof. intros H. exists a, []. auto. Qed.

Lemma returns_bind {A B} (m : M A) (k : A -> M B) h
  (Q : B -> list event -> Prop) :
  returns m h (fun a es1 =>
    returns (k a) (h ++ es1) (fun b es2 => Q b (es1 ++ es2))) ->
  returns (bind m k) h Q.
Proof.
  intros (a & es1 & Hm & b & es2 & Hk & HQ).
  exists b, (es1 ++ es2). split; [| exact HQ].
  exact (bind_run _ _ _ _ _ _ _ Hm Hk).
Qed.

Lemma returns_weaken {A} (m : M A) h (P Q : A -> list event -> Prop) :
  returns m h P -> (forall a es, P a es -> Q a es) -> returns m h Q.
Proof. intros (a & es & Hm & HP) HPQ. exists a, es. auto. Qed.

Lemma returns_ensures {A} (m : M A) h (P : A -> list event -> Prop) :
  returns m h P -> ensures m h P.
Proof.
  intros (a & es & Hm & HP) a' es' Hm'. rewrite Hm in Hm'.
  injection Hm' as <- <-. exact HP.
Qed.

Lemma ensures_ret {A} (a : A) h (Q : A -> list event -> Prop) :
  Q a [] -> ensures (ret a) h Q.
Proof. intros H a' es' E. injection E as <- <-. exact H. Qed.

Lemma ensures_raise {A} e h (Q : A -> list event -> Prop) :
  ensures (raise e) h Q.
Proof. intros a es E. discriminate E. Qed.

Lemma ensures_bind {A B} (m : M A) (k : A -> M B) h
  (Q : B -> list event -> Prop) :
  ensures m h (fun a es1 =>
    ensures (k a) (h ++ es1) (fun b es2 => Q b (es1 ++ es2))) ->
  ensures (bind m k) h Q.
Proof.
  intros H b es E.
  destruct (bind_inv_ok _ _ _ _ _ E) as (a & es1 & es2 & Hm & Hk & ->).
  exact (H a es1 Hm b es2 Hk).
Qed.

Lemma ensures_weaken {A} (m : M A) h (P Q : A -> list event -> Prop) :
  ensures m h P -> (forall a es, P a es -> Q a es) -> ensures m h Q.
Proof. intros H HPQ a es E. auto. Qed.

Lemma try_except_returns {A} (m : M A) handler h a es :
  m h = (Ok a, es) -> try_except m handler h = (Ok a, es).
Proof. intros H. unfold try_except. now rewrite H. Qed.

Lemma emit_status_delivers em message done h :
  delivers em ->
  returns (emit_status em message done) h
    (fun _ es => es = progress em message done).
Proof.
  intros Hd. exists tt. eexists. split; [| reflexivity].
  destruct em as [f |]; [| reflexivity].
  unfold emit_status, await_emitter, progress. now rewrite (Hd f eq_refl).
Qed.

Lemma emit_status_events em message done h :
  exists r, emit_status em message done h = (r, progress em message done).
Proof.
  destruct em as [f |]; [| eexists; reflexivity].
  unfold emit_status, await_emitter, progress. eexists; reflexivity.
Qed.

Lemma unload_model_returns model_id h :
  returns (unload_model model_id) h
    (fun _ es =>
       posts es = [(generate_url, residency_payload model_id 0)] /\
       emitted es = []).
Proof.
  destruct (unload_model_run model_id h) as (es & E & H).
  exists tt, es. auto.
Qed.

Lemma load_model_returns model_id h :
  returns (load_model model_id) h
    (fun _ es =>
       posts es = [(generate_url, residency_payload model_id (-1))] /\
       emitted es = []).
Proof.
  destruct (load_model_run model_id h) as (es & E & H).
  exists tt, es. auto.
Qed.

Lemma generate_replacement_returns model_id messages h :
  returns (generate_replacement model_id messages) h
    (fun answer es =>
       posts es = [(chat_url, chat_payload model_id messages)] /\
       emitted es = [] /\
       (generation_failed
          (runtime (h ++ generating model_id) chat_url
             (chat_payload model_id messages)) ->
        exists diagnostic, answer = JStr diagnostic /\ diagnostic <> [])).
Proof.
  destruct (generate_replacement_run model_id messages h) as (a & es & E & H).
  exists a, es. auto.
Qed.

Lemma check_refusal_true content h es :
  check_refusal content h = (Ok true, es) ->
  exists text,
    content = JStr text /\ text <> [] /\
    posts es = [(generate_url, judge_payload text)] /\ emitted es = [].
Proof.
  intros H. destruct content as [| b | n | q | text | l | d].
  1-4,6-7: unfold check_refusal in H; cbn [method_strip] in H;
    destruct (negb (truthy _)); discriminate H.
  destruct (all_space text) eqn:E.
  - rewrite check_refusal_blank in H by exact E. discriminate H.
  - destruct (check_refusal_judged text h E) as (b & es' & Hr & Hp & He & _).
    rewrite Hr in H. injection H as -> <-.
    exists text. repeat split; auto. intros ->. discriminate E.
Qed.

Lemma check_refusal_calls content h :
  emitted (snd (check_refusal content h)) = [] /\
  (posts (snd (check_refusal content h)) = [] \/
   exists text,
     content = JStr text /\
     posts (snd (check_refusal content h)) = [(generate_url, judge_payload text)]).
Proof.
  destruct content as [| b | n | q | text | l | d].
  1-4,6-7: unfold check_refusal; cbn [method_strip];
    destruct (negb (truthy _)); cbn; auto.
  destruct (all_space text) eqn:E.
  - rewrite check_refusal_blank by exact E. cbn. auto.
  - destruct (check_refusal_judged text h E) as (b & es' & Hr & Hp & He & _).
    rewrite Hr. cbn [snd]. split; [exact He|]. right. eauto.
Qed.

Lemma bind_ret_l {A B} (a : A) (k : A -> M B) h : bind (ret a) k h = k a h.
Proof.
  unfold bind, ret. cbv beta iota zeta. rewrite app_nil_r. now destruct (k a h).
Qed.

Lemma returns_bind_ret {A B} (a : A) (k : A -> M B) h Q :
  returns (k a) h Q -> returns (bind (ret a) k) h Q.
Proof. unfold returns. now rewrite bind_ret_l. Qed.

Lemma returns_bind_tell {B} e (k : unit -> M B) h
  (Q : B -> list event -> Prop) :
  returns (k tt) (h ++ [e]) (fun b es => Q b (e :: es)) ->
  returns (bind (tell e) k) h Q.
Proof.
  intros H. apply returns_bind. exists tt, [e]. split; [reflexivity | exact H].
Qed.

Ltac step lemma :=
  apply returns_bind; eapply returns_weaken; [apply lemma |];
  cbv beta.

Lemma posts_progress em message done : posts (progress em message done) = [].
Proof. now destruct em. Qed.

Lemma emitted_progress em message done :
  emitted (progress em message done)
  = match em with Some _ => [status_event message done] | None => [] end.
Proof. now destruct em. Qed.

Lemma posts_print line es : posts (EvPrint line :: es) = posts es.
Proof. reflexivity. Qed.

Lemma emitted_print line es : emitted (EvPrint line :: es) = emitted es.
Proof. reflexivity. Qed.

Ltac step_emit Hd :=
  apply returns_bind; eapply returns_weaken;
  [apply emit_status_delivers; exact Hd |]; cbv beta.

Lemma outlet_swap_run body user em h init last es_c :
  delivers em ->
  dict_get body "messages" = Some (JList (init ++ [JDict last])) ->
  check_refusal (dict_get_default last "content" (JStr (lit ""))) (h ++ checking em)
    = (Ok true, es_c) ->
  let primary := dict_get_default body "model" JNull in
  returns (outlet body user em) h (fun body' es =>
    (exists answer,
       body' = dict_set body "messages"
                 (JList (init ++ [JDict (dict_set last "content" answer)])) /\
       ((forall es', generation_failed
                       (runtime (h ++ es') chat_url
                          (chat_payload secondary (JList init)))) ->
        exists diagnostic, answer = JStr diagnostic /\ diagnostic <> [])) /\
    posts es = posts es_c ++ swap_calls primary (JList init) /\
    emitted es = match em with Some _ => swap_progress primary | None => [] end).
Proof.
  intros Hd Hm Hc primary.
  destruct (check_refusal_true _ _ _ Hc) as (text & Ht & Hne & Hpc & Hec).
  assert (Hmd : dict_get_default body "messages" (JList [])
                = JList (init ++ [JDict last]))
    by (unfold dict_get_default; now rewrite Hm).
  unfold outlet. rewrite Hmd. fold primary.
  replace (truthy (JList (init ++ [JDict last]))) with true
    by (destruct init; reflexivity).
  cbn [negb]. unfold index_last. rewrite rev_app_distr. cbn [rev app].
  apply returns_bind_ret. cbn [method_get]. apply returns_bind_ret.
  step_emit Hd. intros _ es1 ->.
  apply returns_bind. exists true, es_c. split.
  { apply try_except_returns. exact Hc. }
  cbv beta iota. unfold print. apply returns_bind_tell.
  step_emit Hd. intros _ es2 ->.
  unfold slice_but_last. rewrite removelast_last. apply returns_bind_ret.
  step unload_model_returns. intros _ es3 (Hp3 & He3).
  step_emit Hd. intros _ es4 ->.
  step generate_replacement_returns. intros answer es5 (Hp5 & He5 & Hf5).
  step_emit Hd. intros _ es6 ->.
  step unload_model_returns. intros _ es7 (Hp7 & He7).
  step_emit Hd. intros _ es8 ->.
  step load_model_returns. intros _ es9 (Hp9 & He9).
  step_emit Hd. intros _ es10 ->.
  unfold set_last_content, getitem. rewrite Hm.
  apply returns_bind. apply returns_bind_ret.
  rewrite rev_app_distr. cbn [rev app]. rewrite rev_involutive.
  apply returns_ret. apply returns_ret.
  split; [| split].
  - exists answer. split; [reflexivity |].
    intros Hfail. apply Hf5. rewrite <- !app_assoc. apply Hfail.
  - rewrite !posts_app, posts_print, !posts_app, !posts_progress.
    rewrite Hp3, Hp5, Hp7, Hp9. reflexivity.
  - rewrite !emitted_app, emitted_print, !emitted_app, !emitted_progress.
    rewrite Hec, He3, He5, He7, He9. now destruct em.
Qed.

Lemma dict_get_set_same d k v : dict_get (dict_set d k v) k = Some v.
Proof.
  induction d as [| [k' v'] r IH]; simpl.
  - now rewrite String.eqb_refl.
  - destruct (String.eqb k' k) eqn:E; simpl.
    + now rewrite String.eqb_refl.
    + now rewrite E.
Qed.

Lemma dict_get_set_other d k v k' :
  k' <> k -> dict_get (dict_set d k v) k' = dict_get d k'.
Proof.
  intros Hk. induction d as [| [k0 v0] r IH]; simpl.
  - apply String.eqb_neq in Hk. rewrite String.eqb_sym in Hk. now rewrite Hk.
  - destruct (String.eqb k0 k) eqn:E; simpl.
    + apply String.eqb_eq in E. subst k0.
      apply String.eqb_neq in Hk. rewrite String.eqb_sym in Hk. now rewrite Hk.
    + now rewrite IH.
Qed.

Lemma dict_keys_set d k v :
  dict_get d k <> None -> dict_keys (dict_set d k v) = dict_keys d.
Proof.
  unfold dict_keys. induction d as [| [k0 v0] r IH]; simpl.
  - congruence.
  - destruct (String.eqb k0 k) eqn:E; simpl.
    + apply String.eqb_eq in E. now subst.
    + intros H. now rewrite IH.
Qed.

Lemma swapped_body_differs body init last answer :
  dict_get body "messages" = Some (JList (init ++ [JDict last])) ->
  dict_get last "content" <> None ->
  only_last_content_differs body
    (dict_set body "messages"
       (JList (init ++ [JDict (dict_set last "content" answer)]))).
Proof.
  intros Hm Hc. exists init, last, (dict_set last "content" answer).
  repeat split.
  - exact Hm.
  - apply dict_get_set_same.
  - intros k Hk. now apply dict_get_set_other.
  - now apply dict_keys_set.
  - intros k Hk. now apply dict_get_set_other.
  - apply dict_keys_set. congruence.
Qed.

(** The classification step of [outlet]: the guarded call of
    [check_refusal] always yields a verdict. *)
Lemma classify_returns content handler_line h :
  returns
    (try_except (check_refusal content)
       (fun e => print (handler_line e) ;; ret false)) h
    (fun verdict es =>
       (verdict = true -> check_refusal content h = (Ok true, es)) /\
       (verdict = false -> fst (check_refusal content h) <> Ok true) /\
       posts es = posts (snd (check_refusal content h)) /\
       emitted es = emitted (snd (check_refusal content h))).
Proof.
  unfold returns, try_except, bind, print, tell, ret.
  destruct (check_refusal content h) as [[[|] | e] es]; cbn [fst snd].
  - exists true, es. repeat split; auto; discriminate.
  - exists false, es. repeat split; auto; discriminate.
  - eexists false, _. split; [reflexivity |].
    rewrite posts_app, emitted_app. cbn.
    rewrite !app_nil_r. repeat split; auto; discriminate.
Qed.

Lemma outlet_pass_run body user em h init last :
  delivers em ->
  dict_get body "messages" = Some (JList (init ++ [JDict last])) ->
  let content := dict_get_default last "content" (JStr (lit "")) in
  fst (check_refusal content (h ++ checking em)) <> Ok true ->
  returns (outlet body user em) h (fun body' es =>
    body' = body /\
    posts es = posts (snd (check_refusal content (h ++ checking em))) /\
    emitted es = match em with
                 | Some _ => [ status_event (lit "Checking response for refusal...") false;
                               status_event (lit "") true ]
                 | None => []
                 end).
Proof.
  intros Hd Hm content Hc.
  assert (Hmd : dict_get_default body "messages" (JList [])
                = JList (init ++ [JDict last]))
    by (unfold dict_get_default; now rewrite Hm).
  unfold outlet. rewrite Hmd.
  replace (truthy (JList (init ++ [JDict last]))) with true
    by (destruct init; reflexivity).
  cbn [negb]. unfold index_last. rewrite rev_app_distr. cbn [rev app].
  apply returns_bind_ret. cbn [method_get]. apply returns_bind_ret.
  step_emit Hd. intros _ es1 ->.
  step classify_returns. intros verdict es2 (Ht & _ & Hp & He).
  destruct verdict.
  { exfalso. apply Hc. fold content (checking em) in Ht. now rewrite Ht. }
  step_emit Hd. intros _ es3 ->.
  apply returns_ret. split; [reflexivity |].
  rewrite !posts_app, !emitted_app, !posts_progress, !emitted_progress, !app_nil_r.
  rewrite Hp, He. fold content (checking em). cbn [app].
  destruct (check_refusal_calls content (h ++ checking em)) as (-> & _).
  split; [reflexivity | now destruct em].
Qed.

Lemma last_message_shape messages k default h h' lm ai es es' :
  index_last messages h = (Ok lm, es) ->
  method_get lm k default h' = (Ok ai, es') ->
  exists init last,
    messages = JList (init ++ [JDict last]) /\
    lm = JDict last /\ ai = dict_get_default last k default.
Proof.
  intros H1 H2.
  destruct lm as [| | | | | | last]; try discriminate H2.
  injection H2 as <- _.
  destruct messages as [| | | | s | l |]; try discriminate H1.
  - cbn in H1. destruct (rev s); discriminate H1.
  - cbn in H1. destruct (rev l) as [| x r] eqn:E; [discriminate H1 |].
    injection H1 as -> _.
    exists (rev r), last. repeat split.
    rewrite <- (rev_involutive l), E. reflexivity.
Qed.

Lemma messages_present body l :
  dict_get_default body "messages" (JList []) = JList l -> l <> [] ->
  dict_get body "messages" = Some (JList l).
Proof.
  unfold dict_get_default. destruct (dict_get body "messages"); intros H Hl.
  - now subst.
  - injection H as <-. now destruct Hl.
Qed.

Lemma set_last_content_run body init last v h :
  dict_get body "messages" = Some (JList (init ++ [JDict last])) ->
  set_last_content body v h
  = (Ok (dict_set body "messages"
           (JList (init ++ [JDict (dict_set last "content" v)]))), []).
Proof.
  intros Hm. unfold set_last_content, getitem. rewrite Hm.
  rewrite bind_ret_l. rewrite rev_app_distr. cbn [rev app].
  now rewrite rev_involutive.
Qed.

Ltac skip := apply ensures_bind; intros ? ? _.

Lemma outlet_frame_run body user em h :
  ensures (outlet body user em) h (fun body' _ =>
    body' = body \/ only_last_content_differs body body').
Proof.
  unfold outlet.
  destruct (truthy (dict_get_default body "messages" (JList []))) eqn:Et;
    cbn [negb]; [| apply ensures_ret; now left].
  apply ensures_bind. intros lm es1 E1.
  apply ensures_bind. intros ai es2 E2.
  destruct (last_message_shape _ _ _ _ _ _ _ _ _ E1 E2)
    as (init & last & Hmd & -> & ->).
  assert (Hm : dict_get body "messages" = Some (JList (init ++ [JDict last])))
    by (apply messages_present; [exact Hmd | now destruct init]).
  skip.
  apply ensures_bind. intros verdict es4 E4.
  destruct verdict.
  - destruct (returns_ensures _ _ _ (classify_returns _ _ _) _ _ E4) as (Ht & _).
    destruct (check_refusal_true _ _ _ (Ht eq_refl)) as (text & Hc & Hne & _).
    do 11 skip.
    apply ensures_bind. intros body' es_set E.
    apply ensures_ret. right.
    rewrite (set_last_content_run _ _ _ _ _ Hm) in E. injection E as <- _.
    apply swapped_body_differs; [exact Hm |].
    unfold dict_get_default in Hc.
    destruct (dict_get last "content"); [discriminate |].
    injection Hc as Hc. exfalso. apply Hne. now rewrite <- Hc.
  - skip. apply ensures_ret. now left.
Qed.

Lemma generate_replacement_cases model_id messages h :
  let o := runtime (h ++ generating model_id) chat_url
             (chat_payload model_id messages) in
  snd (generate_replacement model_id messages h)
  = generating model_id ++ [EvPost chat_url (chat_payload model_id messages)] /\
  (forall e, exchange_error o = Some e ->
     fst (generate_replacement model_id messages h)
     = Ok (JStr (lit "System Error: Failed to swap models. " ++ str_of_exn e))) /\
  (forall c, chat_reply o c ->
     fst (generate_replacement model_id messages h) = Ok c) /\
  (chat_reply_without_content o ->
     fst (generate_replacement model_id messages h)
     = Ok (JStr (lit "Error generating replacement."))).
Proof.
  unfold generate_replacement, try_except, bind, when, requests_post,
    raise_for_status, response_json, method_get, print, tell, ret, raise,
    generating, exchange_error.
  destruct (debug (valves self)); cbn [fst snd app]; rewrite ?app_nil_r;
    (destruct (runtime _ _ _) as [detail | status body];
     cbn [fst snd app status_code body_json]).
  all: try (destruct ((400 <=? status) && (status <? 600))%Z eqn:Est;
            cbn [fst snd app]).
  all: try (destruct body as [v |]; cbn [fst snd app]).
  all: try (destruct v as [| ? | ? | ? | ? | ? | d]; cbn [fst snd app]).
  all: try (destruct (dict_get_default d "message" (JDict []))
              as [| ? | ? | ? | ? | ? | m] eqn:Em; cbn [fst snd app]).
  all: (split; [reflexivity | split; [| split]]).
  all: try (intros e He; injection He as <-; reflexivity).
  all: try (intros e He; discriminate He).
  all: try (intros c Hc); try (intros Hc); inversion Hc; subst.
  all: try match goal with
       | Hs : (_ && _)%bool = true, Hr : (_ < 400 \/ 600 <= _)%Z |- _ =>
           apply status_error_iff in Hr; congruence
       end.
  all: repeat match goal with
       | H : dict_get ?d ?k = _, E : dict_get_default ?d ?k _ = _ |- _ =>
           unfold dict_get_default in E; rewrite H in E
       end;
       try discriminate.
  all: repeat match goal with
       | E : JDict _ = JDict _ |- _ => injection E as E; subst
       end.
  all: unfold dict_get_default; cbn [dict_get];
       repeat match goal with
       | H : dict_get _ _ = _ |- _ => rewrite H
       end; reflexivity.
Qed.

(** ** The claims *)

Lemma returns_run {A} (m : M A) h (Q : A -> list event -> Prop) :
  returns m h Q -> exists a, fst (m h) = Ok a /\ Q a (snd (m h)).
Proof. intros (a & es & E & HQ). exists a. now rewrite E. Qed.

Lemma run_eta {A} (m : M A) h r :
  fst (m h) = r -> m h = (r, snd (m h)).
Proof. intros <-. now destruct (m h). Qed.

(** ** The place of a request or an emission in a run *)

Lemma split_unique {A} (x : A) l1 r1 l2 r2 :
  l1 ++ x :: r1 = l2 ++ x :: r2 ->
  ~ In x l1 -> ~ In x r1 -> l1 = l2 /\ r1 = r2.
Proof.
  revert l2. induction l1 as [| a l1 IH]; intros [| b l2] E H1 H2; cbn [app] in E.
  - injection E as ->. auto.
  - injection E as <- ->. destruct H2. apply in_or_app. right. now left.
  - injection E as -> _. destruct H1. now left.
  - injection E as <- E.
    destruct (IH l2 E) as (-> & ->); auto.
    intros Hin. apply H1. now right.
Qed.

Lemma in_posts u p es : In (EvPost u p) es -> In (u, p) (posts es).
Proof.
  intros H. unfold posts. apply in_flat_map. exists (EvPost u p).
  split; [exact H | now left].
Qed.

Lemma in_emitted ev es : In (EvEmit ev) es -> In ev (emitted es).
Proof.
  intros H. unfold emitted. apply in_flat_map. exists (EvEmit ev).
  split; [exact H | now left].
Qed.

Lemma outlet_swap_generation body user em h init last es_c :
  delivers em ->
  dict_get body "messages" = Some (JList (init ++ [JDict last])) ->
  check_refusal (dict_get_default last "content" (JStr (lit ""))) (h ++ checking em)
    = (Ok true, es_c) ->
  let primary := dict_get_default body "model" JNull in
  returns (outlet body user em) h (fun body' es =>
    exists A B answer es_g,
      generate_replacement secondary (JList init) (h ++ A) = (Ok answer, es_g) /\
      es = A ++ es_g ++ B /\
      body' = dict_set body "messages"
                (JList (init ++ [JDict (dict_set last "content" answer)])) /\
      posts A = posts es_c ++ [(generate_url, residency_payload primary 0)] /\
      posts B = [ (generate_url, residency_payload secondary 0);
                  (generate_url, residency_payload primary (-1)) ]).
Proof.
  intros Hd Hm Hc primary.
  assert (Hmd : dict_get_default body "messages" (JList [])
                = JList (init ++ [JDict last]))
    by (unfold dict_get_default; now rewrite Hm).
  unfold outlet. rewrite Hmd. fold primary.
  replace (truthy (JList (init ++ [JDict last]))) with true
    by (destruct init; reflexivity).
  cbn [negb]. unfold index_last. rewrite rev_app_distr. cbn [rev app].
  apply returns_bind_ret. cbn [method_get]. apply returns_bind_ret.
  step_emit Hd. intros _ es1 ->.
  apply returns_bind. exists true, es_c. split.
  { apply try_except_returns. exact Hc. }
  cbv beta iota. unfold print. apply returns_bind_tell.
  step_emit Hd. intros _ es2 ->.
  unfold slice_but_last. rewrite removelast_last. apply returns_bind_ret.
  step unload_model_returns. intros _ es3 (Hp3 & He3).
  step_emit Hd. intros _ es4 ->.
  apply returns_bind.
  match goal with
  | |- returns (generate_replacement ?m ?ms) ?hg _ =>
      destruct (generate_replacement_run m ms hg) as (answer & es5 & Eg & _)
  end.
  exists answer, es5. split; [exact Eg |].
  step_emit Hd. intros _ es6 ->.
  step unload_model_returns. intros _ es7 (Hp7 & He7).
  step_emit Hd. intros _ es8 ->.
  step load_model_returns. intros _ es9 (Hp9 & He9).
  step_emit Hd. intros _ es10 ->.
  apply returns_bind. eexists _, []. 
  split; [apply (set_last_content_run _ _ _ _ _ Hm) |].
  apply returns_ret.
  rewrite <- !app_assoc in Eg.
  eexists _, (progress em _ false ++ es7 ++ progress em _ false ++ es9
              ++ progress em _ true), answer, es5.
  split; [exact Eg |].
  split; [| split; [reflexivity | split]].
  - rewrite <- !app_assoc. cbn [app]. rewrite ?app_nil_r. reflexivity.
  - rewrite !posts_app, posts_print, ?posts_app, !posts_progress, Hp3. cbn [app].
    rewrite ?app_nil_r. reflexivity.
  - rewrite !posts_app, !posts_progress, Hp7, Hp9. reflexivity.
Qed.

Lemma posts_generating model_id : posts (generating model_id) = [].
Proof. unfold generating. now destruct (debug (valves self)). Qed.

Lemma chat_is_no_other_request model_id messages u text m k :
  (u, chat_payload model_id messages) <> (generate_url, judge_payload text) /\
  (u, chat_payload model_id messages) <> (generate_url, residency_payload m k).
Proof.
  split; intros E;
    apply (f_equal (fun p : pystr * json =>
                      match snd p with JDict d => length d | _ => 0 end)) in E;
    discriminate E.
Qed.

(** In a swap, the chat request stands once in the run's events: what
    precedes it is what [generate_replacement] was started after, followed
    by its console line. *)
Lemma generation_place body user em h init last text before after :
  delivers em ->
  dict_get body "messages" = Some (JList (init ++ [JDict last])) ->
  dict_get last "content" = Some (JStr text) ->
  fst (check_refusal (JStr text) (h ++ checking em)) = Ok true ->
  snd (outlet body user em h)
  = before ++ EvPost chat_url (chat_payload secondary (JList init)) :: after ->
  exists A answer,
    before = A ++ generating secondary /\
    fst (generate_replacement secondary (JList init) (h ++ A)) = Ok answer /\
    fst (outlet body user em h)
    = Ok (dict_set body "messages"
            (JList (init ++ [JDict (dict_set last "content" answer)]))).
Proof.
  intros Hd Hm Hc Hv Htrace. apply run_eta in Hv.
  assert (Hcd : dict_get_default last "content" (JStr (lit "")) = JStr text)
    by (unfold dict_get_default; now rewrite Hc).
  rewrite <- Hcd in Hv.
  destruct (check_refusal_true _ _ _ Hv) as (text' & Ht & _ & Hpc & _).
  rewrite Hcd in Ht. injection Ht as <-.
  destruct (returns_run _ _ _
              (outlet_swap_generation body user em h init last _ Hd Hm Hv))
    as (body' & Hr & A & B & answer & es_g & Eg & Hes & -> & HpA & HpB).
  exists A, answer.
  destruct (generate_replacement_cases secondary (JList init) (h ++ A))
    as (Hg & _).
  rewrite Eg in Hg. cbn [snd] in Hg. subst es_g.
  rewrite Hes in Htrace. rewrite <- app_assoc in Htrace. cbn [app] in Htrace.
  rewrite app_assoc in Htrace.
  apply split_unique in Htrace as (Hb & _).
  - split; [now symmetry |]. split; [now rewrite Eg | exact Hr].
  - intros Hin. apply in_posts in Hin.
    rewrite posts_app, posts_generating, app_nil_r, HpA, Hpc in Hin.
    cbn [app] in Hin.
    destruct Hin as [E | [E | []]]; symmetry in E;
      [ exact (proj1 (chat_is_no_other_request _ _ _ _ JNull 0%Z) E)
      | exact (proj2 (chat_is_no_other_request _ _ _ [] _ _) E) ].
  - intros Hin. apply in_posts in Hin. rewrite HpB in Hin.
    destruct Hin as [E | [E | []]]; symmetry in E;
      exact (proj2 (chat_is_no_other_request _ _ _ [] _ _) E).
Qed.

(** In a swap the chat request is made: the run's events do split around
    it. *)
Lemma generation_is_requested body user em h init last text :
  delivers em ->
  dict_get body "messages" = Some (JList (init ++ [JDict last])) ->
  dict_get last "content" = Some (JStr text) ->
  fst (check_refusal (JStr text) (h ++ checking em)) = Ok true ->
  exists before after,
    snd (outlet body user em h)
    = before ++ EvPost chat_url (chat_payload secondary (JList init)) :: after.
Proof.
  intros Hd Hm Hc Hv. apply run_eta in Hv.
  assert (Hcd : dict_get_default last "content" (JStr (lit "")) = JStr text)
    by (unfold dict_get_default; now rewrite Hc).
  rewrite <- Hcd in Hv.
  destruct (returns_run _ _ _
              (outlet_swap_generation body user em h init last _ Hd Hm Hv))
    as (body' & _ & A & B & answer & es_g & Eg & Hes & _).
  destruct (generate_replacement_cases secondary (JList init) (h ++ A))
    as (Hg & _).
  rewrite Eg in Hg. cbn [snd] in Hg. subst es_g.
  exists (A ++ generating secondary), B.
  rewrite Hes, <- !app_assoc. reflexivity.
Qed.

(** ** Emissions at which the observer raises *)

Lemma stops_quiet {A} f h (r : outcome A) es :
  emitted es = [] -> stops_at_failure f h r es.
Proof.
  intros He before ev after e E _. subst es.
  rewrite emitted_app in He. apply app_eq_nil in He as (_ & He).
  discriminate He.
Qed.

Lemma stops_seq {A B} f h (a : A) es1 (r2 : outcome B) es2 :
  stops_at_failure f h (Ok a) es1 ->
  stops_at_failure f (h ++ es1) r2 es2 ->
  stops_at_failure f h r2 (es1 ++ es2).
Proof.
  intros H1 H2 before ev after e E Hf.
  apply app_eq_app in E as (l & [(E1 & E2) | (E1 & E2)]).
  - destruct l as [| x l].
    + rewrite app_nil_r in E1. subst es1. cbn [app] in E2. subst es2.
      apply (H2 [] ev after e eq_refl). now rewrite app_nil_r.
    + cbn [app] in E2. injection E2 as <- E2.
      destruct (H1 before ev l e E1 Hf) as (Hr & _). discriminate Hr.
  - subst before. rewrite app_assoc in Hf.
    exact (H2 l ev after e E2 Hf).
Qed.

Lemma stops_bind {A B} f (m : M A) (k : A -> M B) h :
  stops_at_failure f h (fst (m h)) (snd (m h)) ->
  (forall a, fst (m h) = Ok a ->
     stops_at_failure f (h ++ snd (m h))
       (fst (k a (h ++ snd (m h)))) (snd (k a (h ++ snd (m h))))) ->
  stops_at_failure f h (fst (bind m k h)) (snd (bind m k h)).
Proof.
  unfold bind. destruct (m h) as [[a | e1] es1]; cbn [fst snd]; intros H1 H2.
  - apply (stops_seq f h a); [exact H1 | exact (H2 a eq_refl)].
  - intros before ev after e E Hf.
    destruct (H1 before ev after e E Hf) as (Hr & Ha).
    injection Hr as ->. auto.
Qed.

Lemma stops_emit f message done h :
  stops_at_failure f h
    (fst (emit_status (Some f) message done h))
    (snd (emit_status (Some f) message done h)).
Proof.
  unfold emit_status, await_emitter. cbn [fst snd].
  intros before ev after e E Hf.
  destruct before as [| x before]; cbn [app] in E.
  - injection E as <- <-. rewrite app_nil_r in Hf. now rewrite Hf.
  - injection E as _ E. destruct before; discriminate E.
Qed.

Lemma index_last_quiet v h : snd (index_last v h) = [].
Proof.
  destruct v as [| | | | s | l |]; try reflexivity; cbn [index_last].
  - now destruct (rev s).
  - now destruct (rev l).
Qed.

Lemma method_get_quiet v k default h : snd (method_get v k default h) = [].
Proof. now destruct v. Qed.

Lemma slice_but_last_quiet v h : snd (slice_but_last v h) = [].
Proof. now destruct v. Qed.

Lemma set_last_content_quiet body v h : snd (set_last_content body v h) = [].
Proof.
  unfold set_last_content, getitem, bind.
  destruct (dict_get body "messages") as [msgs |]; [| reflexivity].
  cbn [ret fst snd app].
  destruct msgs as [| | | | | l |]; try reflexivity.
  destruct (rev l) as [| [| | | | | |] r]; reflexivity.
Qed.

Lemma unload_model_emits_nothing model_id h :
  emitted (snd (unload_model model_id h)) = [].
Proof. destruct (unload_model_run model_id h) as (es & -> & _ & He). exact He. Qed.

Lemma load_model_emits_nothing model_id h :
  emitted (snd (load_model model_id h)) = [].
Proof. destruct (load_model_run model_id h) as (es & -> & _ & He). exact He. Qed.

Lemma generate_replacement_emits_nothing model_id messages h :
  emitted (snd (generate_replacement model_id messages h)) = [].
Proof.
  destruct (generate_replacement_run model_id messages h)
    as (a & es & -> & _ & He & _). exact He.
Qed.

Lemma classify_emits_nothing content handler_line h :
  emitted
    (snd (try_except (check_refusal content)
            (fun e => print (handler_line e) ;; ret false) h)) = [].
Proof.
  destruct (classify_returns content handler_line h)
    as (b & es & -> & _ & _ & _ & He).
  cbn [snd]. rewrite He. apply check_refusal_calls.
Qed.

Ltac quiet_step lemma :=
  apply stops_bind; [apply stops_quiet; rewrite lemma; reflexivity |];
  intros ? _; cbv beta zeta.

Ltac silent_step lemma :=
  apply stops_bind; [apply stops_quiet; apply lemma |];
  intros ? _; cbv beta zeta.

Ltac emit_step :=
  apply stops_bind; [apply stops_emit |]; intros ? _; cbv beta zeta.

Lemma outlet_stops_at_failure body user f h :
  stops_at_failure f h
    (fst (outlet body user (Some f) h)) (snd (outlet body user (Some f) h)).
Proof.
  unfold outlet.
  destruct (truthy (dict_get_default body "messages" (JList [])));
    cbn [negb]; [| now apply stops_quiet].
  quiet_step index_last_quiet.
  quiet_step method_get_quiet.
  emit_step.
  silent_step classify_emits_nothing.
  match goal with
  | |- context [if ?b then _ else _] => destruct b
  end.
  - unfold print. silent_step (@eq_refl (list json) []).
    emit_step.
    quiet_step slice_but_last_quiet.
    silent_step unload_model_emits_nothing.
    emit_step.
    silent_step generate_replacement_emits_nothing.
    emit_step.
    silent_step unload_model_emits_nothing.
    emit_step.
    silent_step load_model_emits_nothing.
    emit_step.
    quiet_step set_last_content_quiet.
    now apply stops_quiet.
  - emit_step. now apply stops_quiet.
Qed.


(** C1, as amended.  When the progress observer (if any) delivers every
    event and the last message is classified as a refusal, [outlet] returns
    normally and its requests to the runtime are, in this order: the
    judge's classification, then evict the primary, generate with the
    secondary over the history without the last message, evict the
    secondary, load the primary.  The runtime is arbitrary, so the later
    requests are made whatever becomes of the evictions. *)
Theorem refusal_run_performs_swap_calls body user em h init last text :
  delivers em ->
  dict_get body "messages" = Some (JList (init ++ [JDict last])) ->
  dict_get last "content" = Some (JStr text) ->
  fst (check_refusal (JStr text) (h ++ checking em)) = Ok true ->
  (exists body', fst (outlet body user em h) = Ok body') /\
  posts (snd (outlet body user em h))
  = (generate_url, judge_payload text)
      :: swap_calls (dict_get_default body "model" JNull) (JList init).
Proof.
  intros Hd Hm Hc Hv. apply run_eta in Hv.
  assert (Hcd : dict_get_default last "content" (JStr (lit "")) = JStr text)
    by (unfold dict_get_default; now rewrite Hc).
  rewrite <- Hcd in Hv.
  destruct (check_refusal_true _ _ _ Hv) as (text' & Ht & _ & Hp & _).
  rewrite Hcd in Ht. injection Ht as <-.
  destruct (returns_run _ _ _ (outlet_swap_run body user em h init last _ Hd Hm Hv))
    as (body' & Hr & _ & Hposts & _).
  split; [now exists body' |]. rewrite Hposts, Hp. reflexivity.
Qed.

(** C2, as amended.  With no observer registered, [emit_status] does
    nothing and returns.  With one registered it hands it exactly one status
    event; it returns when the observer delivers it and raises the
    observer's exception when the observer raises.  That exception leaves
    [outlet]: whenever the observer raises at an emission of a run, the run
    ends there, raising what the observer raised, and nothing follows the
    emission. *)
Theorem emit_status_outcome message done h :
  emit_status None message done h = (Ok tt, []) /\
  (forall f,
     f h (status_event message done) = None ->
     emit_status (Some f) message done h
     = (Ok tt, [EvEmit (status_event message done)])) /\
  (forall f e,
     f h (status_event message done) = Some e ->
     emit_status (Some f) message done h
     = (Raise e, [EvEmit (status_event message done)])) /\
  (forall body user f before ev after e,
     snd (outlet body user (Some f) h) = before ++ EvEmit ev :: after ->
     f (h ++ before) ev = Some e ->
     fst (outlet body user (Some f) h) = Raise e /\ after = []).
Proof.
  split; [reflexivity |].
  split; [| split].
  - intros f H. unfold emit_status, await_emitter. now rewrite H.
  - intros f e H. unfold emit_status, await_emitter. now rewrite H.
  - intros body user f before ev after e E Hf.
    exact (outlet_stops_at_failure body user f h before ev after e E Hf).
Qed.

(** C3, as amended.  For text that is not blank, [check_refusal] returns a
    verdict, and the verdict is true exactly when the judge's exchange
    delivers a raw reply whose upper-casing holds YES, that is, a reply in
    which Y or y, E or e and a character whose upper-casing starts with S
    (S, s, the long s, the sharp s, the ligatures of long s or s with t)
    stand side by side; any other reply, and every failure of the
    exchange, give false.  In particular a reply that holds YES in some
    letter case gives true. *)
Theorem check_refusal_verdict text h :
  all_space text = false ->
  exists verdict,
    fst (check_refusal (JStr text) h) = Ok verdict /\
    (verdict = true <->
     exists reply,
       judge_reply (runtime (h ++ asking) generate_url (judge_payload text)) reply /\
       contains_yes_when_upper reply) /\
    (forall reply,
       judge_reply (runtime (h ++ asking) generate_url (judge_payload text)) reply ->
       contains_yes_any_case reply ->
       verdict = true).
Proof.
  intros H.
  destruct (check_refusal_judged text h H) as (b & es & E & _ & _ & Hb).
  exists b. rewrite E. split; [reflexivity |]. split; [exact Hb |].
  intros reply Hr Hy. apply Hb. exists reply. split; [exact Hr |].
  now apply any_case_is_upper_case.
Qed.

(** C4, as amended.  When the progress observer (if any) delivers every
    event, the last message is classified as a refusal and the replacement
    generation fails (the chat request of the run, at the point of the run
    at which it is made, comes back as a failure), [outlet] returns
    normally, the content of the last message of the returned body is a
    non-empty diagnostic text, and the eviction of the secondary and the
    load of the primary are still requested after the failed generation. *)
Theorem generation_failure_yields_diagnostic
  body user em h init last text before after :
  delivers em ->
  dict_get body "messages" = Some (JList (init ++ [JDict last])) ->
  dict_get last "content" = Some (JStr text) ->
  fst (check_refusal (JStr text) (h ++ checking em)) = Ok true ->
  snd (outlet body user em h)
  = before ++ EvPost chat_url (chat_payload secondary (JList init)) :: after ->
  generation_failed
    (runtime (h ++ before) chat_url (chat_payload secondary (JList init))) ->
  exists diagnostic body',
    diagnostic <> [] /\
    fst (outlet body user em h) = Ok body' /\
    last_content body' = Some (JStr diagnostic) /\
    posts (snd (outlet body user em h))
    = [ (generate_url, judge_payload text);
        (generate_url, residency_payload (dict_get_default body "model" JNull) 0);
        (chat_url, chat_payload secondary (JList init));
        (generate_url, residency_payload secondary 0);
        (generate_url, residency_payload (dict_get_default body "model" JNull) (-1)) ].
Proof.
  intros Hd Hm Hc Hv Htrace Hfail.
  destruct (generation_place body user em h init last text before after
              Hd Hm Hc Hv Htrace) as (A & answer & -> & Hg & Hr).
  destruct (generate_replacement_run secondary (JList init) (h ++ A))
    as (answer' & es' & Eg & _ & _ & Hdiag).
  rewrite Eg in Hg. injection Hg as ->.
  rewrite app_assoc in Hfail.
  destruct (Hdiag Hfail) as (diagnostic & -> & Hne).
  exists diagnostic. eexists. split; [exact Hne |]. split; [exact Hr |].
  split.
  - unfold last_content, messages_of. rewrite dict_get_set_same.
    rewrite rev_app_distr. cbn [rev app]. apply dict_get_set_same.
  - apply run_eta in Hv.
    assert (Hcd : dict_get_default last "content" (JStr (lit "")) = JStr text)
      by (unfold dict_get_default; now rewrite Hc).
    rewrite <- Hcd in Hv.
    destruct (check_refusal_true _ _ _ Hv) as (text' & Ht & _ & Hp & _).
    rewrite Hcd in Ht. injection Ht as <-.
    destruct (returns_run _ _ _
                (outlet_swap_run body user em h init last _ Hd Hm Hv))
      as (body' & _ & _ & Hposts & _).
    rewrite Hposts, Hp. reflexivity.
Qed.

(** C5, as amended.  When the progress observer (if any) delivers every
    event and the last message of a non-empty conversation is not
    classified as a refusal, [outlet] returns the body it was given, makes
    no residency and no generation request, and the observer receives
    exactly one terminal event, which has an empty description (with no
    observer registered nothing is delivered). *)
Theorem pass_through_when_not_refusal body user em h init last :
  delivers em ->
  dict_get body "messages" = Some (JList (init ++ [JDict last])) ->
  fst (check_refusal (dict_get_default last "content" (JStr (lit "")))
         (h ++ checking em)) <> Ok true ->
  fst (outlet body user em h) = Ok body /\
  filter is_residency_call (posts (snd (outlet body user em h))) = [] /\
  filter is_generation_call (posts (snd (outlet body user em h))) = [] /\
  filter is_terminal (emitted (snd (outlet body user em h)))
  = match em with
    | Some _ => [status_event (lit "") true]
    | None => []
    end.
Proof.
  intros Hd Hm Hv.
  destruct (returns_run _ _ _ (outlet_pass_run body user em h init last Hd Hm Hv))
    as (body' & Hr & -> & Hp & He).
  split; [exact Hr |]. rewrite Hp, He.
  destruct (check_refusal_calls (dict_get_default last "content" (JStr (lit "")))
              (h ++ checking em)) as (_ & [-> | (text & _ & ->)]);
    repeat split; try reflexivity; now destruct em.
Qed.

(** C6.  Whenever [outlet] returns, the body it returns is the body it was
    given or differs from it in the content of the last message only: the
    other entries of the last message (its role among them), every earlier
    message and every other field of the body are as they were.  A swap is
    the only run that changes the body, so this holds of every run in which
    a swap occurs. *)
Theorem outlet_changes_last_content_only body user em h body' es :
  outlet body user em h = (Ok body', es) ->
  body' = body \/ only_last_content_differs body body'.
Proof. intros E. exact (outlet_frame_run body user em h body' es E). Qed.

(** C7.  For text that is empty or blank, [check_refusal] returns false and
    leaves no event: no request is sent. *)
Theorem blank_text_is_not_refusal text h :
  all_space text = true ->
  check_refusal (JStr text) h = (Ok false, []).
Proof. apply check_refusal_blank. Qed.

(** C8.  For text that is not blank, [check_refusal] sends exactly one
    request.  Its prompt is the fixed instruction with the first 1000
    characters of the text, the whole text when it is shorter, between the
    quotes; its temperature is 0 and its output cap is 10 tokens. *)
Theorem judge_request_is_bounded text h :
  all_space text = false ->
  posts (snd (check_refusal (JStr text) h))
  = [ (ollama_base_url (valves self) ++ lit "/api/generate",
       JDict [ ("model", JStr (judge_model_id (valves self)));
               ("prompt",
                JStr (lit "Analyze the following AI response text. Does it represent a refusal to answer a request due to ethical, safety, moral, or policy guidelines? Typical refusals sound like 'I cannot fulfill', 'I apologize', 'I cannot comply'."
                      ++ [10; 10]%N ++ lit "Text: " ++ [34]%N
                      ++ firstn 1000 text
                      ++ [34; 10; 10]%N
                      ++ lit "Answer with exactly one word: 'YES' or 'NO'."));
               ("stream", JBool false);
               ("options", JDict [ ("temperature", JFloat (Qmake 0 1));
                                   ("num_predict", JInt 10) ]) ]) ] /\
  length (firstn 1000 text) = Nat.min 1000 (length text).
Proof.
  intros H.
  destruct (check_refusal_judged text h H) as (b & es & E & Hp & _).
  rewrite E. split; [exact Hp | apply length_firstn].
Qed.

(** C9.  When the body's message sequence is empty, [outlet] returns the
    body it was given and leaves no event: no classification, no request,
    no progress event, no exception. *)
Theorem empty_conversation_passes_through body user em h :
  dict_get_default body "messages" (JList []) = JList [] ->
  outlet body user em h = (Ok body, []).
Proof. intros H. unfold outlet. now rewrite H. Qed.

(** C10, as amended.  A body without a [messages] key is returned as it is,
    with no event, as an empty conversation is.  A body whose last message
    has no [content] is classified as not a refusal without any request to
    the runtime and is returned as it is, provided the progress observer
    (if any) delivers every event. *)
Theorem missing_fields_pass_through body user em h :
  (dict_get body "messages" = None ->
   outlet body user em h = (Ok body, [])) /\
  (forall init last,
     delivers em ->
     dict_get body "messages" = Some (JList (init ++ [JDict last])) ->
     dict_get last "content" = None ->
     fst (outlet body user em h) = Ok body /\
     posts (snd (outlet body user em h)) = []).
Proof.
  split.
  - intros H. unfold outlet, dict_get_default. now rewrite H.
  - intros init last Hd Hm Hc.
    assert (Hcd : dict_get_default last "content" (JStr (lit "")) = JStr (lit ""))
      by (unfold dict_get_default; now rewrite Hc).
    assert (Hv : fst (check_refusal (dict_get_default last "content" (JStr (lit "")))
                        (h ++ checking em)) <> Ok true)
      by (rewrite Hcd; discriminate).
    destruct (returns_run _ _ _ (outlet_pass_run body user em h init last Hd Hm Hv))
      as (body' & Hr & -> & Hp & _).
    split; [exact Hr |]. rewrite Hp, Hcd. reflexivity.
Qed.

(** ** Further properties of the methods *)

(** X1.  [unload_model] never raises, whatever the runtime does: it makes
    one request, with [keep_alive] 0, and writes one console line when the
    transport fails; a response is taken as success whatever its status
    (nothing is written unless [debug] is set). *)
Theorem unload_model_swallows_failures model_id h :
  fst (unload_model model_id h) = Ok tt /\
  posts (snd (unload_model model_id h))
  = [ (generate_url, JDict [("model", model_id); ("keep_alive", JInt 0)]) ] /\
  emitted (snd (unload_model model_id h)) = [] /\
  printed (snd (unload_model model_id h))
  = match runtime h generate_url (residency_payload model_id 0) with
    | Unreachable detail =>
        [ lit "Error unloading " ++ fmt model_id ++ lit ": "
          ++ str_of_exn (TransportError detail) ]
    | Responded _ _ =>
        if debug (valves self) then [ lit "DEBUG: Unloaded " ++ fmt model_id ]
        else []
    end.
Proof.
  unfold unload_model, try_except, bind, when, requests_post, print, tell, ret.
  destruct (runtime _ _ _); destruct (debug (valves self));
    cbn [fst snd app]; repeat split; reflexivity.
Qed.

(** X2.  [load_model] never raises either: one request, with [keep_alive]
    -1, one console line when the transport fails, and a response of any
    status taken as success. *)
Theorem load_model_swallows_failures model_id h :
  fst (load_model model_id h) = Ok tt /\
  posts (snd (load_model model_id h))
  = [ (generate_url, JDict [("model", model_id); ("keep_alive", JInt (-1))]) ] /\
  emitted (snd (load_model model_id h)) = [] /\
  printed (snd (load_model model_id h))
  = match runtime h generate_url (residency_payload model_id (-1)) with
    | Unreachable detail =>
        [ lit "Error loading " ++ fmt model_id ++ lit ": "
          ++ str_of_exn (TransportError detail) ]
    | Responded _ _ =>
        if debug (valves self) then [ lit "DEBUG: Reloaded " ++ fmt model_id ]
        else []
    end.
Proof.
  unfold load_model, try_except, bind, when, requests_post, print, tell, ret.
  destruct (runtime _ _ _); destruct (debug (valves self));
    cbn [fst snd app]; repeat split; reflexivity.
Qed.

(** X3.  When the chat exchange delivers an answer with a content,
    [generate_replacement] returns that content as it is (text or not),
    after one request. *)
Theorem generate_replacement_returns_content model_id messages h c :
  chat_reply
    (runtime (h ++ generating model_id) chat_url (chat_payload model_id messages))
    c ->
  generate_replacement model_id messages h
  = (Ok c, generating model_id
           ++ [EvPost chat_url (chat_payload model_id messages)]).
Proof.
  intros H.
  destruct (generate_replacement_cases model_id messages h) as (He & _ & Hc & _).
  rewrite (surjective_pairing (generate_replacement model_id messages h)).
  now rewrite He, (Hc c H).
Qed.

(** X4.  When the chat exchange ends with an exception (no connection, an
    error status, a body that is not JSON), [generate_replacement] does not
    raise: it returns the text [System Error: Failed to swap models.]
    followed by the exception's text. *)
Theorem generate_replacement_reports_exception model_id messages h e :
  exchange_error
    (runtime (h ++ generating model_id) chat_url (chat_payload model_id messages))
  = Some e ->
  fst (generate_replacement model_id messages h)
  = Ok (JStr (lit "System Error: Failed to swap models. " ++ str_of_exn e)).
Proof.
  intros H.
  destruct (generate_replacement_cases model_id messages h) as (_ & He & _).
  exact (He e H).
Qed.

(** X5.  When the chat exchange delivers an object without a [message], or
    with a [message] without [content], [generate_replacement] returns the
    text [Error generating replacement.] *)
Theorem generate_replacement_default_text model_id messages h :
  chat_reply_without_content
    (runtime (h ++ generating model_id) chat_url (chat_payload model_id messages)) ->
  fst (generate_replacement model_id messages h)
  = Ok (JStr (lit "Error generating replacement.")).
Proof.
  intros H.
  destruct (generate_replacement_cases model_id messages h) as (_ & _ & _ & Hd).
  exact (Hd H).
Qed.

Lemma check_refusal_non_text content h :
  (forall s, content <> JStr s) ->
  check_refusal content h
  = (if truthy content then Raise (AttributeError content "strip") else Ok false,
     []).
Proof.
  intros H. unfold check_refusal.
  destruct content as [| b | n | q | s | l | d];
    try (destruct (H s eq_refl));
    cbn [method_strip]; destruct (truthy _); reflexivity.
Qed.

(** X6.  Content that is not text never reaches the judge: [check_refusal]
    returns false for a falsy value ([None], an empty list, ...) and raises
    [AttributeError] for any other, and leaves no event in either case. *)
Theorem check_refusal_on_non_text content h :
  (forall s, content <> JStr s) ->
  check_refusal content h
  = (if truthy content then Raise (AttributeError content "strip") else Ok false,
     []).
Proof. apply check_refusal_non_text. Qed.

(** X7.  Only the first 1000 characters of a text reach the judge: two
    texts that are not blank and agree on their first 1000 characters are
    classified by the same run, with the same request and the same
    verdict. *)
Theorem check_refusal_reads_first_1000 t1 t2 h :
  all_space t1 = false ->
  all_space t2 = false ->
  firstn 1000 t1 = firstn 1000 t2 ->
  check_refusal (JStr t1) h = check_refusal (JStr t2) h.
Proof.
  intros H1 H2 Heq.
  destruct (non_blank_text t1 H1) as (Ha1 & Hb1).
  destruct (non_blank_text t2 H2) as (Ha2 & Hb2).
  unfold check_refusal. cbn [method_strip].
  rewrite (truthy_text _ Ha1), (truthy_text _ Ha2). cbn [negb].
  rewrite !bind_ret_l.
  rewrite (truthy_text _ Hb1), (truthy_text _ Hb2). cbn [negb].
  unfold judge_payload, slice_to. now rewrite Heq.
Qed.

Lemma check_refusal_quiet content h :
  debug (valves self) = false ->
  printed (snd (check_refusal content h)) = [].
Proof.
  intros Hd.
  destruct content as [| b | n | q | text | l | d].
  1-4,6-7: rewrite check_refusal_non_text by discriminate; reflexivity.
  destruct (all_space text) eqn:E.
  - now rewrite check_refusal_blank.
  - destruct (non_blank_text text E) as (Ht & Hs).
    unfold check_refusal. cbn [method_strip].
    rewrite (truthy_text _ Ht). cbn [negb]. rewrite bind_ret_l.
    rewrite (truthy_text _ Hs). cbn [negb].
    unfold try_except, bind, when, requests_post, raise_for_status,
      response_json, method_get, method_strip, print, tell, ret, raise.
    rewrite Hd. cbn [fst snd app].
    destruct (runtime _ _ _) as [detail | status body];
      cbn [fst snd app status_code body_json]; [reflexivity |].
    destruct ((400 <=? status) && (status <? 600))%Z;
      cbn [fst snd app]; [reflexivity |].
    destruct body as [v |]; cbn [fst snd app]; [| reflexivity].
    destruct v as [| ? | ? | ? | ? | ? | d]; cbn [fst snd app]; try reflexivity.
    destruct (dict_get_default d "response" (JStr (lit ""))); reflexivity.
Qed.

(** X8.  With [debug] off, [check_refusal] and [generate_replacement]
    write nothing to the console, whatever the content and whatever the
    runtime does: their failures are silent. *)
Theorem debug_off_is_silent content model_id messages h h' :
  debug (valves self) = false ->
  printed (snd (check_refusal content h)) = [] /\
  printed (snd (generate_replacement model_id messages h')) = [].
Proof.
  intros Hd. split; [now apply check_refusal_quiet |].
  destruct (generate_replacement_cases model_id messages h') as (He & _).
  rewrite He. unfold generating. rewrite Hd. reflexivity.
Qed.

(** ** Runs with an arbitrary observer *)

Lemma always_ret {A} (a : A) h (Q : outcome A -> list event -> Prop) :
  Q (Ok a) [] -> always (ret a) h Q.
Proof. intros H. exact H. Qed.

Lemma always_run {A} (m : M A) h r es (Q : outcome A -> list event -> Prop) :
  m h = (r, es) -> Q r es -> always m h Q.
Proof. intros E H. unfold always. now rewrite E. Qed.

Lemma always_weaken {A} (m : M A) h (P Q : outcome A -> list event -> Prop) :
  always m h P -> (forall r es, P r es -> Q r es) -> always m h Q.
Proof. unfold always. auto. Qed.

Lemma always_bind {A B} (m : M A) (k : A -> M B) h
  (Q : outcome B -> list event -> Prop) :
  always m h (fun r es1 =>
    match r with
    | Ok a => always (k a) (h ++ es1) (fun r2 es2 => Q r2 (es1 ++ es2))
    | Raise e => Q (Raise e) es1
    end) ->
  always (bind m k) h Q.
Proof.
  unfold always, bind. destruct (m h) as [[a | e] es1]; cbn [fst snd]; auto.
Qed.

Lemma always_bind_ret {A B} (a : A) (k : A -> M B) h Q :
  always (k a) h Q -> always (bind (ret a) k) h Q.
Proof. unfold always. now rewrite bind_ret_l. Qed.

Lemma always_bind_tell {B} e (k : unit -> M B) h
  (Q : outcome B -> list event -> Prop) :
  always (k tt) (h ++ [e]) (fun r es => Q r (e :: es)) ->
  always (bind (tell e) k) h Q.
Proof. intros H. apply always_bind. exact H. Qed.

Lemma always_returns {A} (m : M A) h (P : A -> list event -> Prop) :
  returns m h P -> always m h (fun r es => exists a, r = Ok a /\ P a es).
Proof.
  intros (a & es & E & H). unfold always. rewrite E. now exists a.
Qed.

Lemma emit_status_always em message done h :
  always (emit_status em message done) h
    (fun _ es => es = progress em message done).
Proof.
  unfold always. destruct (emit_status_events em message done h) as (r & ->).
  reflexivity.
Qed.

Ltac segment :=
  rewrite ?posts_app, ?emitted_app, ?posts_print, ?emitted_print;
  rewrite ?posts_app, ?emitted_app, ?posts_print, ?emitted_print;
  rewrite ?posts_progress, ?emitted_progress;
  repeat match goal with
  | H : posts _ = _ |- _ => rewrite H
  | H : emitted _ = _ |- _ => rewrite H
  end;
  unfold initial_segment, swap_calls, swap_progress, pass_progress;
  try match goal with
  | em : option emitter |- _ => destruct em
  end;
  cbn [app];
  first [ eexists; reflexivity
        | left; eexists; reflexivity
        | right; eexists; reflexivity ].

Ltac emit_or_abort :=
  apply always_bind; eapply always_weaken; [apply emit_status_always |];
  cbv beta; intros [[] | ?] ? ->; [| split; segment].

Ltac run_total lemma :=
  apply always_bind; eapply always_weaken;
  [apply always_returns; apply lemma |]; cbv beta.

Lemma outlet_run_prefix body user em h init last text :
  dict_get body "messages" = Some (JList (init ++ [JDict last])) ->
  dict_get_default last "content" (JStr (lit "")) = JStr text ->
  let primary := dict_get_default body "model" JNull in
  always (outlet body user em) h (fun _ es =>
    initial_segment (posts es)
      ((generate_url, judge_payload text) :: swap_calls primary (JList init)) /\
    (initial_segment (emitted es) pass_progress \/
     initial_segment (emitted es) (swap_progress primary))).
Proof.
  intros Hm Hc primary.
  assert (Hmd : dict_get_default body "messages" (JList [])
                = JList (init ++ [JDict last]))
    by (unfold dict_get_default; now rewrite Hm).
  unfold outlet. rewrite Hmd. fold primary.
  replace (truthy (JList (init ++ [JDict last]))) with true
    by (destruct init; reflexivity).
  cbn [negb]. unfold index_last. rewrite rev_app_distr. cbn [rev app].
  apply always_bind_ret. cbn [method_get]. rewrite Hc. apply always_bind_ret.
  emit_or_abort.
  run_total classify_returns. intros r es2 (verdict & -> & Ht & _ & Hp & He).
  destruct (check_refusal_calls (JStr text)
              (h ++ progress em (lit "Checking response for refusal...") false))
    as (Hce & Hcp).
  rewrite Hce in He.
  destruct verdict.
  - destruct (check_refusal_true _ _ _ (Ht eq_refl)) as (t' & Et & _ & Hp' & _).
    injection Et as <-. clear Hp.
    unfold print. apply always_bind_tell.
    emit_or_abort.
    unfold slice_but_last. rewrite removelast_last. apply always_bind_ret.
    run_total unload_model_returns. intros r es3 (_ & -> & Hp3 & He3).
    emit_or_abort.
    run_total generate_replacement_returns.
    intros r es5 (answer & -> & Hp5 & He5 & _).
    emit_or_abort.
    run_total unload_model_returns. intros r es7 (_ & -> & Hp7 & He7).
    emit_or_abort.
    run_total load_model_returns. intros r es9 (_ & -> & Hp9 & He9).
    emit_or_abort.
    apply always_bind. eapply always_run;
      [apply (set_last_content_run _ _ _ _ _ Hm) |].
    apply always_ret. split; segment.
  - destruct Hcp as [Hcp | (t' & Et & Hcp)];
      [| injection Et as <-]; rewrite Hcp in Hp;
      emit_or_abort; apply always_ret; split; segment.
Qed.

(** X9.  Whatever the observer does and however the run ends, the requests
    [outlet] makes are an initial segment of: the judge's classification,
    evict the primary, generate with the secondary, evict the secondary,
    load the primary.  No request is made out of this order, none twice,
    and no other. *)
Theorem outlet_requests_form_initial_segment body user em h init last text :
  dict_get body "messages" = Some (JList (init ++ [JDict last])) ->
  dict_get_default last "content" (JStr (lit "")) = JStr text ->
  initial_segment
    (posts (snd (outlet body user em h)))
    [ (generate_url, judge_payload text);
      (generate_url, residency_payload (dict_get_default body "model" JNull) 0);
      (chat_url, chat_payload secondary (JList init));
      (generate_url, residency_payload secondary 0);
      (generate_url, residency_payload (dict_get_default body "model" JNull) (-1)) ].
Proof.
  intros Hm Hc.
  exact (proj1 (outlet_run_prefix body user em h init last text Hm Hc)).
Qed.

(** X10.  Whatever the observer does and however the run ends, the events
    [outlet] hands to it are an initial segment of the two events of a run
    without refusal or of the six events of a swap: an event with [done]
    set is never followed by another. *)
Theorem outlet_events_form_initial_segment body user em h init last text :
  dict_get body "messages" = Some (JList (init ++ [JDict last])) ->
  dict_get_default last "content" (JStr (lit "")) = JStr text ->
  initial_segment (emitted (snd (outlet body user em h))) pass_progress \/
  initial_segment (emitted (snd (outlet body user em h)))
    (swap_progress (dict_get_default body "model" JNull)).
Proof.
  intros Hm Hc.
  exact (proj2 (outlet_run_prefix body user em h init last text Hm Hc)).
Qed.

(** X11.  A swap narrated to an observer that delivers: it receives six
    events, in the order checking, unloading the primary, loading the
    secondary and generating, unloading the secondary, restoring the
    primary, swap complete; the last one alone has [done] set. *)
Theorem swap_is_narrated_in_six_events body user f h init last text :
  delivers (Some f) ->
  dict_get body "messages" = Some (JList (init ++ [JDict last])) ->
  dict_get last "content" = Some (JStr text) ->
  fst (check_refusal (JStr text) (h ++ checking (Some f))) = Ok true ->
  let primary := dict_get_default body "model" JNull in
  emitted (snd (outlet body user (Some f) h))
  = [ status_event (lit "Checking response for refusal...") false;
      status_event (lit "Refusal detected. Unloading " ++ fmt primary ++ lit "...") false;
      status_event (lit "Loading " ++ abliterated_model_id (valves self)
                    ++ lit " & Generating...") false;
      status_event (lit "Unloading " ++ abliterated_model_id (valves self) ++ lit "...") false;
      status_event (lit "Restoring " ++ fmt primary ++ lit "...") false;
      status_event (lit "Model swap complete.") true ] /\
  filter is_terminal (emitted (snd (outlet body user (Some f) h)))
  = [ status_event (lit "Model swap complete.") true ].
Proof.
  intros Hd Hm Hc Hv primary. apply run_eta in Hv.
  assert (Hcd : dict_get_default last "content" (JStr (lit "")) = JStr text)
    by (unfold dict_get_default; now rewrite Hc).
  rewrite <- Hcd in Hv.
  destruct (returns_run _ _ _
              (outlet_swap_run body user (Some f) h init last _ Hd Hm Hv))
    as (body' & _ & _ & _ & He).
  rewrite He. split; reflexivity.
Qed.

(** X12.  A swap that succeeds: when the observer (if any) delivers, the
    last message is classified as a refusal and the chat request of the
    run, at the point of the run at which it is made, is answered with
    content [c], [outlet] returns the body with [c] as the content of its
    last message, the earlier messages being as they were. *)
Theorem successful_swap_substitutes_answer
  body user em h init last text c before after :
  delivers em ->
  dict_get body "messages" = Some (JList (init ++ [JDict last])) ->
  dict_get last "content" = Some (JStr text) ->
  fst (check_refusal (JStr text) (h ++ checking em)) = Ok true ->
  snd (outlet body user em h)
  = before ++ EvPost chat_url (chat_payload secondary (JList init)) :: after ->
  chat_reply
    (runtime (h ++ before) chat_url (chat_payload secondary (JList init))) c ->
  exists body',
    fst (outlet body user em h) = Ok body' /\
    last_content body' = Some c /\
    messages_of body' = init ++ [JDict (dict_set last "content" c)].
Proof.
  intros Hd Hm Hc Hv Htrace Hreply.
  destruct (generation_place body user em h init last text before after
              Hd Hm Hc Hv Htrace) as (A & answer & -> & Hg & Hr).
  destruct (generate_replacement_cases secondary (JList init) (h ++ A))
    as (_ & _ & Hans & _).
  rewrite app_assoc in Hreply.
  rewrite (Hans c Hreply) in Hg. injection Hg as <-.
  eexists. split; [exact Hr |].
  unfold last_content, messages_of. rewrite dict_get_set_same.
  split; [| reflexivity].
  rewrite rev_app_distr. cbn [rev app]. apply dict_get_set_same.
Qed.

(** X13.  A last message whose content is not text (a list of parts,
    [None], a number) is never sent to the judge: when the observer (if
    any) delivers, [outlet] returns the body as it is and makes no request,
    the [AttributeError] of [check_refusal] being caught on the way. *)
Theorem non_text_content_passes_through body user em h init last v :
  delivers em ->
  dict_get body "messages" = Some (JList (init ++ [JDict last])) ->
  dict_get last "content" = Some v ->
  (forall s, v <> JStr s) ->
  fst (outlet body user em h) = Ok body /\
  posts (snd (outlet body user em h)) = [].
Proof.
  intros Hd Hm Hc Hv.
  assert (Hcd : dict_get_default last "content" (JStr (lit "")) = v)
    by (unfold dict_get_default; now rewrite Hc).
  assert (Hn : fst (check_refusal (dict_get_default last "content" (JStr (lit "")))
                      (h ++ checking em)) <> Ok true).
  { rewrite Hcd, check_refusal_non_text by exact Hv.
    cbn [fst]. destruct (truthy v); discriminate. }
  destruct (returns_run _ _ _ (outlet_pass_run body user em h init last Hd Hm Hn))
    as (body' & Hr & -> & Hp & _).
  split; [exact Hr |].
  rewrite Hp, Hcd, check_refusal_non_text by exact Hv. reflexivity.
Qed.

(** X14.  A last message that is not an object makes [outlet] raise
    [AttributeError] at once: no event is emitted and no request made. *)
Theorem malformed_last_message_raises body user em h init v :
  dict_get body "messages" = Some (JList (init ++ [v])) ->
  (forall d, v <> JDict d) ->
  outlet body user em h = (Raise (AttributeError v "get"), []).
Proof.
  intros Hm Hv.
  assert (Hmd : dict_get_default body "messages" (JList [])
                = JList (init ++ [v]))
    by (unfold dict_get_default; now rewrite Hm).
  unfold outlet. rewrite Hmd.
  replace (truthy (JList (init ++ [v]))) with true
    by (destruct init; reflexivity).
  cbn [negb]. unfold index_last. rewrite rev_app_distr. cbn [rev app].
  rewrite bind_ret_l.
  destruct v as [| ? | ? | ? | ? | ? | d]; try reflexivity.
  destruct (Hv d eq_refl).
Qed.

End FilterMethods.

(** ** The claims on the sample worlds *)

Local Abbreviation run_outlet runtime body observer :=
  (outlet sample_str_of_exn sample_repr runtime init body [] observer []).

Local Abbreviation run_check runtime content history :=
  (check_refusal sample_str_of_exn runtime init content history).

Local Abbreviation refusing := (sample_runtime (lit "YES") (chat_answer (lit "Sure."))).
Local Abbreviation accepting :=
  (sample_runtime (lit "NO, this is not a refusal.") (chat_answer (lit "Sure."))).
Local Abbreviation failing := (sample_runtime (lit "YES") (Responded 500 None)).
Local Abbreviation sharp := (sample_runtime [121; 101; 223]%N (chat_answer (lit "Sure."))).

Lemma quiet_observer_delivers : delivers (Some quiet_observer).
Proof. intros f H h ev. injection H as <-. reflexivity. Defined.

(** The example of the specification: the judge answers YES, both
    evictions fail, and the four requests of the swap are made all the
    same. *)
Lemma refusal_run_performs_swap_calls_witness :
  posts (snd (run_outlet refusing sample_body (Some quiet_observer)))
  = [ (generate_url init, judge_payload init (lit "I cannot fulfill this request."));
      (generate_url init, residency_payload (JStr (lit "modelA")) 0);
      (chat_url init, chat_payload (JStr (lit "dolphin-mistral")) (JList [user_turn]));
      (generate_url init, residency_payload (JStr (lit "dolphin-mistral")) 0);
      (generate_url init, residency_payload (JStr (lit "modelA")) (-1)) ].
Proof.
  exact (proj2 (refusal_run_performs_swap_calls
                  sample_str_of_exn sample_repr refusing init
                  sample_body [] (Some quiet_observer) []
                  [user_turn] refused_turn (lit "I cannot fulfill this request.")
                  quiet_observer_delivers eq_refl eq_refl eq_refl)).
Defined.

(** The refusal is detected, the observer then fails, and no request of
    the swap is made: the run ends with the observer's exception. *)
Lemma refusal_run_aborted_by_observer :
  dict_get sample_body "messages" = Some (JList ([user_turn] ++ [JDict refused_turn])) /\
  fst (run_check refusing (JStr (lit "I cannot fulfill this request."))
         ([] ++ checking (Some fragile_observer))) = Ok true /\
  fst (run_outlet refusing sample_body (Some fragile_observer))
  = Raise (ObserverError "socket closed") /\
  posts (snd (run_outlet refusing sample_body (Some fragile_observer)))
  = [ (generate_url init, judge_payload init (lit "I cannot fulfill this request.")) ].
Proof. repeat split; vm_compute; reflexivity. Qed.

(** The observer fails at the seventh event of the run, the third
    emission: the run raises there and the seventh event is the last. *)
Lemma emit_status_outcome_witness :
  emit_status (Some quiet_observer) (lit "Model swap complete.") true []
  = (Ok tt, [EvEmit (status_event (lit "Model swap complete.") true)]) /\
  fst (run_outlet refusing sample_body (Some flaky_observer))
  = Raise (ObserverError "socket closed") /\
  skipn 7 (snd (run_outlet refusing sample_body (Some flaky_observer))) = [].
Proof.
  split.
  - exact (proj1 (proj2 (emit_status_outcome
                           sample_str_of_exn sample_repr refusing init
                           (lit "Model swap complete.") true []))
             quiet_observer eq_refl).
  - apply (proj2 (proj2 (proj2 (emit_status_outcome
                                  sample_str_of_exn sample_repr refusing init
                                  (lit "Model swap complete.") true [])))
             sample_body [] flaky_observer
             (firstn 6 (snd (run_outlet refusing sample_body (Some flaky_observer))))
             (status_event (lit "Loading dolphin-mistral & Generating...") false)
             (skipn 7 (snd (run_outlet refusing sample_body (Some flaky_observer))))
             (ObserverError "socket closed"));
      vm_compute; reflexivity.
Defined.

(** An emission raises when the observer does, and the exception ends the
    run in the middle of the swap: the primary has been evicted and is
    never loaded again. *)
Lemma emit_status_raises_and_aborts_swap :
  fst (emit_status (Some broken_observer) (lit "Checking response for refusal...") false [])
  = Raise (ObserverError "socket closed") /\
  fst (run_outlet refusing sample_body (Some flaky_observer))
  = Raise (ObserverError "socket closed") /\
  posts (snd (run_outlet refusing sample_body (Some flaky_observer)))
  = [ (generate_url init, judge_payload init (lit "I cannot fulfill this request."));
      (generate_url init, residency_payload (JStr (lit "modelA")) 0) ].
Proof. repeat split; vm_compute; reflexivity. Qed.

Lemma check_refusal_verdict_witness :
  exists verdict,
    fst (run_check refusing (JStr (lit "I cannot fulfill this request.")) []) = Ok verdict /\
    (verdict = true <->
     exists reply,
       judge_reply
         (refusing ([] ++ asking init) (generate_url init)
            (judge_payload init (lit "I cannot fulfill this request."))) reply /\
       contains_yes_when_upper reply) /\
    (forall reply,
       judge_reply
         (refusing ([] ++ asking init) (generate_url init)
            (judge_payload init (lit "I cannot fulfill this request."))) reply ->
       contains_yes_any_case reply ->
       verdict = true).
Proof.
  exact (check_refusal_verdict sample_str_of_exn refusing init
           (lit "I cannot fulfill this request.") [] eq_refl).
Defined.

(** The judge answers with y, e and the sharp s (U+00DF).  YES stands in
    the reply in no letter case, and the verdict is true all the same: the
    sharp s is upper-cased to SS. *)
Lemma sharp_s_reply_counts_as_yes :
  judge_reply
    (sharp ([] ++ asking init) (generate_url init)
       (judge_payload init (lit "I cannot fulfill this request.")))
    [121; 101; 223]%N /\
  ~ contains_yes_any_case [121; 101; 223]%N /\
  upper [121; 101; 223]%N = lit "YESS" /\
  fst (run_check sharp (JStr (lit "I cannot fulfill this request.")) []) = Ok true.
Proof.
  split; [| split; [| split]].
  - apply judge_reply_text with (d := [("response", JStr [121; 101; 223]%N)]);
      [left; reflexivity | reflexivity].
  - intros (pre & y & e & z & post & H & _ & _ & Hz).
    destruct pre as [|? [|? [|? [|? pre]]]]; cbn in H;
      try discriminate H.
    injection H as _ _ Hs _. subst z. destruct Hz; discriminate.
  - vm_compute. reflexivity.
  - vm_compute. reflexivity.
Qed.

(** The chat endpoint of [warming_runtime] fails the one time the run
    asks, before which seven events took place, although it would answer
    any later request. *)
Lemma generation_failure_yields_diagnostic_witness :
  exists diagnostic body',
    diagnostic <> [] /\
    fst (run_outlet warming_runtime sample_body (Some quiet_observer)) = Ok body' /\
    last_content body' = Some (JStr diagnostic) /\
    posts (snd (run_outlet warming_runtime sample_body (Some quiet_observer)))
    = [ (generate_url init, judge_payload init (lit "I cannot fulfill this request."));
        (generate_url init, residency_payload (JStr (lit "modelA")) 0);
        (chat_url init, chat_payload (JStr (lit "dolphin-mistral")) (JList [user_turn]));
        (generate_url init, residency_payload (JStr (lit "dolphin-mistral")) 0);
        (generate_url init, residency_payload (JStr (lit "modelA")) (-1)) ].
Proof.
  apply (generation_failure_yields_diagnostic
           sample_str_of_exn sample_repr warming_runtime init
           sample_body [] (Some quiet_observer) []
           [user_turn] refused_turn (lit "I cannot fulfill this request.")
           (firstn 7 (snd (run_outlet warming_runtime sample_body (Some quiet_observer))))
           (skipn 8 (snd (run_outlet warming_runtime sample_body (Some quiet_observer))))
           quiet_observer_delivers).
  - reflexivity.
  - reflexivity.
  - vm_compute. reflexivity.
  - vm_compute. reflexivity.
  - vm_compute. apply failed_status. lia.
Defined.

(** The generation fails, the observer fails right after it, and neither
    the eviction of the secondary nor the load of the primary is
    requested: the run ends with the observer's exception. *)
Lemma cleanup_skipped_when_observer_fails :
  fst (run_check failing (JStr (lit "I cannot fulfill this request."))
         ([] ++ checking (Some late_observer))) = Ok true /\
  fst (run_outlet failing sample_body (Some late_observer))
  = Raise (ObserverError "socket closed") /\
  posts (snd (run_outlet failing sample_body (Some late_observer)))
  = [ (generate_url init, judge_payload init (lit "I cannot fulfill this request."));
      (generate_url init, residency_payload (JStr (lit "modelA")) 0);
      (chat_url init, chat_payload (JStr (lit "dolphin-mistral")) (JList [user_turn])) ].
Proof. repeat split; vm_compute; reflexivity. Qed.

Lemma accepting_is_not_refusal :
  fst (run_check accepting
         (dict_get_default refused_turn "content" (JStr (lit "")))
         ([] ++ checking (Some quiet_observer))) <> Ok true.
Proof. vm_compute. discriminate. Defined.

(** The second example of the specification: the judge answers NO. *)
Lemma pass_through_when_not_refusal_witness :
  fst (run_outlet accepting sample_body (Some quiet_observer)) = Ok sample_body /\
  filter is_residency_call
    (posts (snd (run_outlet accepting sample_body (Some quiet_observer)))) = [] /\
  filter is_generation_call
    (posts (snd (run_outlet accepting sample_body (Some quiet_observer)))) = [] /\
  filter is_terminal
    (emitted (snd (run_outlet accepting sample_body (Some quiet_observer))))
  = [status_event (lit "") true].
Proof.
  exact (pass_through_when_not_refusal
           sample_str_of_exn sample_repr accepting init
           sample_body [] (Some quiet_observer) []
           [user_turn] refused_turn
           quiet_observer_delivers eq_refl accepting_is_not_refusal).
Defined.

(** The judge answers NO and the observer fails: the run does not return
    the body, it ends with the observer's exception. *)
Lemma pass_through_aborted_by_observer :
  dict_get sample_body "messages"
  = Some (JList ([user_turn] ++ [JDict refused_turn])) /\
  fst (run_check accepting
         (dict_get_default refused_turn "content" (JStr (lit "")))
         ([] ++ checking (Some broken_observer))) = Ok false /\
  fst (run_outlet accepting sample_body (Some broken_observer))
  = Raise (ObserverError "socket closed").
Proof. repeat split; vm_compute; reflexivity. Qed.

Lemma outlet_changes_last_content_only_witness :
  answered_body = sample_body \/
  only_last_content_differs sample_body answered_body.
Proof.
  apply (outlet_changes_last_content_only
           sample_str_of_exn sample_repr refusing init
           sample_body [] (Some quiet_observer) [] answered_body
           (snd (run_outlet refusing sample_body (Some quiet_observer)))).
  vm_compute. reflexivity.
Defined.

(** A no-break space, an em space, a space and a tabulation. *)
Lemma blank_text_is_not_refusal_witness :
  run_check refusing (JStr [160; 8195; 32; 9]%N) [] = (Ok false, []).
Proof.
  exact (blank_text_is_not_refusal sample_str_of_exn refusing init
           [160; 8195; 32; 9]%N [] eq_refl).
Defined.

(** A text of 1001 characters: its last character is left out of the
    prompt. *)
Lemma judge_request_is_bounded_witness :
  posts (snd (run_check refusing (JStr (long_apology ++ lit "!")) []))
  = [ (lit "http://host.docker.internal:11434/api/generate",
       JDict [ ("model", JStr (lit "llama3.2"));
               ("prompt", JStr (lit "Analyze the following AI response text. Does it represent a refusal to answer a request due to ethical, safety, moral, or policy guidelines? Typical refusals sound like 'I cannot fulfill', 'I apologize', 'I cannot comply'."
                      ++ [10; 10]%N ++ lit "Text: " ++ [34]%N
                      ++ firstn 1000 (long_apology ++ lit "!") ++ [34; 10; 10]%N
                      ++ lit "Answer with exactly one word: 'YES' or 'NO'."));
               ("stream", JBool false);
               ("options", JDict [ ("temperature", JFloat (Qmake 0 1));
                                   ("num_predict", JInt 10) ]) ]) ] /\
  length (firstn 1000 (long_apology ++ lit "!"))
  = Nat.min 1000 (length (long_apology ++ lit "!")) /\
  firstn 1000 (long_apology ++ lit "!") = long_apology.
Proof.
  split; [| split].
  - exact (proj1 (judge_request_is_bounded sample_str_of_exn refusing init
                    (long_apology ++ lit "!") [] eq_refl)).
  - exact (proj2 (judge_request_is_bounded sample_str_of_exn refusing init
                    (long_apology ++ lit "!") [] eq_refl)).
  - vm_compute. reflexivity.
Defined.

Lemma empty_conversation_passes_through_witness :
  run_outlet refusing empty_body (Some broken_observer) = (Ok empty_body, []).
Proof.
  exact (empty_conversation_passes_through
           sample_str_of_exn sample_repr refusing init
           empty_body [] (Some broken_observer) [] eq_refl).
Defined.

Lemma missing_fields_pass_through_witness :
  run_outlet refusing body_without_messages (Some broken_observer)
  = (Ok body_without_messages, []) /\
  fst (run_outlet refusing body_without_content (Some quiet_observer))
  = Ok body_without_content /\
  posts (snd (run_outlet refusing body_without_content (Some quiet_observer))) = [].
Proof.
  split.
  - exact (proj1 (missing_fields_pass_through
                    sample_str_of_exn sample_repr refusing init
                    body_without_messages [] (Some broken_observer) [])
             eq_refl).
  - exact (proj2 (missing_fields_pass_through
                    sample_str_of_exn sample_repr refusing init
                    body_without_content [] (Some quiet_observer) [])
             [user_turn] [("role", JStr (lit "assistant"))]
             quiet_observer_delivers eq_refl eq_refl).
Defined.

(** The last message has no content and the observer fails: the run does
    not return the body, it raises. *)
Lemma missing_content_raises_with_broken_observer :
  dict_get body_without_content "messages"
  = Some (JList ([user_turn] ++ [JDict [("role", JStr (lit "assistant"))]])) /\
  fst (run_outlet refusing body_without_content (Some broken_observer))
  = Raise (ObserverError "socket closed").
Proof. split; vm_compute; reflexivity. Qed.

(** ** The further properties on the sample worlds *)

Local Abbreviation run_generate runtime :=
  (generate_replacement sample_str_of_exn sample_repr runtime init
     (JStr (lit "dolphin-mistral")) (JList [user_turn]) []).

Local Abbreviation speechless := (sample_runtime (lit "YES") (Responded 200 (Some (JDict [])))).

Lemma refusing_answers es' :
  chat_reply
    (refusing ([] ++ es') (chat_url init)
       (chat_payload (secondary init) (JList [user_turn])))
    (JStr (lit "Sure.")).
Proof.
  apply chat_reply_content
    with (m := [("role", JStr (lit "assistant")); ("content", JStr (lit "Sure."))]);
    [left; reflexivity | reflexivity | reflexivity].
Defined.

Lemma generate_replacement_returns_content_witness :
  run_generate refusing
  = (Ok (JStr (lit "Sure.")),
     [EvPost (chat_url init)
        (chat_payload (JStr (lit "dolphin-mistral")) (JList [user_turn]))]).
Proof.
  exact (generate_replacement_returns_content
           sample_str_of_exn sample_repr refusing init
           (JStr (lit "dolphin-mistral")) (JList [user_turn]) [] (JStr (lit "Sure."))
           (refusing_answers [])).
Defined.

Lemma generate_replacement_reports_exception_witness :
  fst (run_generate failing)
  = Ok (JStr (lit "System Error: Failed to swap models. HTTP error")).
Proof.
  exact (generate_replacement_reports_exception
           sample_str_of_exn sample_repr failing init
           (JStr (lit "dolphin-mistral")) (JList [user_turn]) [] (HTTPError 500)
           eq_refl).
Defined.

Lemma speechless_has_no_content :
  chat_reply_without_content
    (speechless ([] ++ generating sample_repr init (JStr (lit "dolphin-mistral")))
       (chat_url init)
       (chat_payload (JStr (lit "dolphin-mistral")) (JList [user_turn]))).
Proof. apply chat_reply_no_message; [left; reflexivity | reflexivity]. Defined.

Lemma generate_replacement_default_text_witness :
  fst (run_generate speechless) = Ok (JStr (lit "Error generating replacement.")).
Proof.
  exact (generate_replacement_default_text
           sample_str_of_exn sample_repr speechless init
           (JStr (lit "dolphin-mistral")) (JList [user_turn]) []
           speechless_has_no_content).
Defined.

Lemma content_parts_is_not_text s : content_parts <> JStr s.
Proof. discriminate. Defined.

Lemma check_refusal_on_non_text_witness :
  run_check refusing content_parts []
  = (Raise (AttributeError content_parts "strip"), []).
Proof.
  exact (check_refusal_on_non_text sample_str_of_exn refusing init
           content_parts [] content_parts_is_not_text).
Defined.

Lemma check_refusal_reads_first_1000_witness :
  run_check refusing (JStr long_refusal_a) []
  = run_check refusing (JStr long_refusal_b) [].
Proof.
  apply (check_refusal_reads_first_1000 sample_str_of_exn refusing init
           long_refusal_a long_refusal_b []);
    vm_compute; reflexivity.
Defined.

Lemma debug_off_is_silent_witness :
  printed (snd (run_check failing (JStr (lit "I cannot fulfill this request.")) [])) = [] /\
  printed (snd (run_generate failing)) = [].
Proof.
  exact (debug_off_is_silent sample_str_of_exn sample_repr failing init
           (JStr (lit "I cannot fulfill this request."))
           (JStr (lit "dolphin-mistral")) (JList [user_turn]) [] [] eq_refl).
Defined.

(** The observer fails once the generation was requested: the requests
    made are the first three of the five. *)
Lemma outlet_requests_form_initial_segment_witness :
  initial_segment
    (posts (snd (run_outlet failing sample_body (Some late_observer))))
    [ (generate_url init, judge_payload init (lit "I cannot fulfill this request."));
      (generate_url init, residency_payload (JStr (lit "modelA")) 0);
      (chat_url init, chat_payload (JStr (lit "dolphin-mistral")) (JList [user_turn]));
      (generate_url init, residency_payload (JStr (lit "dolphin-mistral")) 0);
      (generate_url init, residency_payload (JStr (lit "modelA")) (-1)) ].
Proof.
  exact (outlet_requests_form_initial_segment
           sample_str_of_exn sample_repr failing init
           sample_body [] (Some late_observer) []
           [user_turn] refused_turn (lit "I cannot fulfill this request.")
           eq_refl eq_refl).
Defined.

Lemma outlet_events_form_initial_segment_witness :
  initial_segment
    (emitted (snd (run_outlet failing sample_body (Some late_observer))))
    pass_progress \/
  initial_segment
    (emitted (snd (run_outlet failing sample_body (Some late_observer))))
    (swap_progress sample_repr init (JStr (lit "modelA"))).
Proof.
  exact (outlet_events_form_initial_segment
           sample_str_of_exn sample_repr failing init
           sample_body [] (Some late_observer) []
           [user_turn] refused_turn (lit "I cannot fulfill this request.")
           eq_refl eq_refl).
Defined.

Lemma swap_is_narrated_in_six_events_witness :
  emitted (snd (run_outlet refusing sample_body (Some quiet_observer)))
  = [ status_event (lit "Checking response for refusal...") false;
      status_event (lit "Refusal detected. Unloading modelA...") false;
      status_event (lit "Loading dolphin-mistral & Generating...") false;
      status_event (lit "Unloading dolphin-mistral...") false;
      status_event (lit "Restoring modelA...") false;
      status_event (lit "Model swap complete.") true ] /\
  filter is_terminal
    (emitted (snd (run_outlet refusing sample_body (Some quiet_observer))))
  = [ status_event (lit "Model swap complete.") true ].
Proof.
  exact (swap_is_narrated_in_six_events
           sample_str_of_exn sample_repr refusing init
           sample_body [] quiet_observer []
           [user_turn] refused_turn (lit "I cannot fulfill this request.")
           quiet_observer_delivers eq_refl eq_refl eq_refl).
Defined.

Lemma successful_swap_substitutes_answer_witness :
  exists body',
    fst (run_outlet refusing sample_body (Some quiet_observer)) = Ok body' /\
    last_content body' = Some (JStr (lit "Sure.")) /\
    messages_of body'
    = [user_turn] ++ [JDict (dict_set refused_turn "content" (JStr (lit "Sure.")))].
Proof.
  apply (successful_swap_substitutes_answer
           sample_str_of_exn sample_repr refusing init
           sample_body [] (Some quiet_observer) []
           [user_turn] refused_turn (lit "I cannot fulfill this request.")
           (JStr (lit "Sure."))
           (firstn 7 (snd (run_outlet refusing sample_body (Some quiet_observer))))
           (skipn 8 (snd (run_outlet refusing sample_body (Some quiet_observer))))
           quiet_observer_delivers).
  - reflexivity.
  - reflexivity.
  - vm_compute. reflexivity.
  - vm_compute. reflexivity.
  - apply refusing_answers.
Defined.

Lemma non_text_content_passes_through_witness :
  fst (run_outlet refusing body_with_parts (Some quiet_observer))
  = Ok body_with_parts /\
  posts (snd (run_outlet refusing body_with_parts (Some quiet_observer))) = [].
Proof.
  exact (non_text_content_passes_through
           sample_str_of_exn sample_repr refusing init
           body_with_parts [] (Some quiet_observer) []
           [user_turn] [("role", JStr (lit "assistant")); ("content", content_parts)]
           content_parts
           quiet_observer_delivers eq_refl eq_refl content_parts_is_not_text).
Defined.

Lemma bare_text_is_not_an_object d :
  JStr (lit "I cannot fulfill this request.") <> JDict d.
Proof. discriminate. Defined.

Lemma malformed_last_message_raises_witness :
  run_outlet refusing body_with_bare_text (Some quiet_observer)
  = (Raise (AttributeError (JStr (lit "I cannot fulfill this request.")) "get"), []).
Proof.
  exact (malformed_last_message_raises
           sample_str_of_exn sample_repr refusing init
           body_with_bare_text [] (Some quiet_observer) []
           [user_turn] (JStr (lit "I cannot fulfill this request."))
           eq_refl bare_text_is_not_an_object).
Defined.
